(** * flowninjas-core: workflow graph model, validator, step compiler,
    collaborator-response extraction and the HTTP endpoints around them.

  A shallow embedding of

    - [app/models/workflow.py]              (module [Models]),
    - [app/services/ai_service.py]          (module [AIService]),
    - [app/services/workflow_service.py]    (module [WorkflowService]),
    - [app/api/v1/endpoints/workflows.py]   (module [Endpoints]),

  followed by the properties of the specification that concern them.

  Python values are modelled as follows.  A [str] is a [string] whose
  characters are code points in the Latin-1 range; [Optional[T]] is
  [option T]; a [dict] is an association list in insertion order; an
  exception is a value of [exn] carried by [Raise]. *)

From Stdlib Require Import List Bool Arith ZArith Lia Ascii String.
From Stdlib Require Import Numbers.DecimalString Numbers.DecimalNat.
Import ListNotations.

Local Open Scope list_scope.
Local Open Scope string_scope.

(* ================================================================== *)
(** ** Python primitives *)
(* ================================================================== *)

Module Py.

(** Values of dynamically typed positions ([Any], JSON documents,
    the step document handed to the YAML serializer). *)
#[warnings="-register-all"]
Inductive pyval : Type :=
| PNone
| PBool  (b : bool)
| PInt   (z : Z)
| PFloat (lexeme : string)
| PStr   (s : string)
| PList  (l : list pyval)
| PDict  (d : list (string * pyval)).

Inductive exn : Type :=
| ValueError      (msg : string)
| RuntimeError    (msg : string)
| TypeError       (msg : string)
| KeyError        (key : string)
| ValidationError (msg : string)
| CollaboratorFailure (msg : string)
| HTTPException   (status_code : Z) (detail : pyval).

Inductive result (A : Type) : Type :=
| Ok    (a : A)
| Raise (e : exn).
Arguments Ok {A} a.
Arguments Raise {A} e.

Definition is_ok {A} (r : result A) : bool :=
  match r with Ok _ => true | Raise _ => false end.

(** Truthiness of the optional values the services test with
    [if x], [not x] and [x or default]. *)
Definition truthy_str (o : option string) : bool :=
  match o with
  | Some s => negb (s =? EmptyString)
  | None => false
  end.

Definition truthy_int (o : option Z) : bool :=
  match o with
  | Some z => negb (z =? 0)%Z
  | None => false
  end.

Definition truthy_dict {V} (o : option (list (string * V))) : bool :=
  match o with
  | Some (_ :: _) => true
  | _ => false
  end.

(** [x or default] *)
Definition str_or (o : option string) (d : string) : string :=
  if truthy_str o then match o with Some s => s | None => d end else d.

(** How an f-string renders an [Optional[str]]. *)
Definition fmt_opt (o : option string) : string :=
  match o with Some s => s | None => "None" end.

(** How an f-string renders a non-negative [int]. *)
Definition fmt_nat (n : nat) : string :=
  NilEmpty.string_of_uint (Nat.to_uint n).

Definition opt_str (o : option string) : pyval :=
  match o with Some s => PStr s | None => PNone end.

(** *** [str.find], [in], slicing, [str.strip] *)

Fixpoint skip (n : nat) (s : string) : string :=
  match n, s with
  | O, _ => s
  | S _, EmptyString => EmptyString
  | S n', String _ s' => skip n' s'
  end.

Fixpoint take (n : nat) (s : string) : string :=
  match n, s with
  | O, _ => EmptyString
  | S _, EmptyString => EmptyString
  | S n', String c s' => String c (take n' s')
  end.

(** [s.startswith(sub)] *)
Fixpoint startswith (s sub : string) {struct sub} : bool :=
  match sub with
  | EmptyString => true
  | String a sub' =>
      match s with
      | EmptyString => false
      | String b s' => (a =? b)%char && startswith s' sub'
      end
  end.

(** Lowest index [>= pos] at which [sub] occurs in the text whose
    suffix from [pos] on is [s]. *)
Fixpoint find_from (sub s : string) (pos : nat) : option nat :=
  if startswith s sub then Some pos
  else match s with
       | EmptyString => None
       | String _ s' => find_from sub s' (S pos)
       end.

(** [s.find(sub, start)]: the lowest index [>= start] at which [sub]
    occurs, or [-1].  A negative [start] counts from the end. *)
Definition find (s sub : string) (start : Z) : Z :=
  let len := Z.of_nat (String.length s) in
  let st := if (start <? 0)%Z then Z.max 0 (start + len) else start in
  if (len <? st)%Z then (-1)%Z
  else match find_from sub (skip (Z.to_nat st) s) (Z.to_nat st) with
       | Some i => Z.of_nat i
       | None => (-1)%Z
       end.

(** [len(s)] *)
Definition len (s : string) : Z := Z.of_nat (String.length s).

(** [sub in s] *)
Definition contains (sub s : string) : bool :=
  match find_from sub s 0 with Some _ => true | None => false end.

(** Normalisation of one slice bound: a negative bound counts from
    the end, and the result is clamped to [0 .. len]. *)
Definition slice_bound (len : nat) (i : Z) : nat :=
  let j := if (i <? 0)%Z then (i + Z.of_nat len)%Z else i in
  if (j <? 0)%Z then 0
  else Nat.min (Z.to_nat j) len.

(** [s[start:stop]] *)
Definition slice (s : string) (start stop : Z) : string :=
  let lo := slice_bound (String.length s) start in
  let hi := slice_bound (String.length s) stop in
  take (hi - lo) (skip lo s).

(** [str.isspace] on one character of the Latin-1 range. *)
Definition is_space (c : ascii) : bool :=
  let n := nat_of_ascii c in
  (((9 <=? n) && (n <=? 13)) || ((28 <=? n) && (n <=? 32))
   || (n =? 133) || (n =? 160))%nat.

Fixpoint lstrip (s : string) : string :=
  match s with
  | EmptyString => EmptyString
  | String c s' => if is_space c then lstrip s' else s
  end.

Fixpoint rstrip (s : string) : string :=
  match s with
  | EmptyString => EmptyString
  | String c s' =>
      match rstrip s' with
      | EmptyString => if is_space c then EmptyString else String c EmptyString
      | r => String c r
      end
  end.

(** [s.strip()] *)
Definition strip (s : string) : string := rstrip (lstrip s).

(** Dictionaries: lookup, [d[k] = v] and [d.update(e)]. *)
Fixpoint dict_get {V} (k : string) (d : list (string * V)) : option V :=
  match d with
  | [] => None
  | (k', v) :: d' => if k =? k' then Some v else dict_get k d'
  end.

Fixpoint dict_set {V} (k : string) (v : V) (d : list (string * V))
  : list (string * V) :=
  match d with
  | [] => [(k, v)]
  | (k', v') :: d' =>
      if k =? k' then (k', v) :: d' else (k', v') :: dict_set k v d'
  end.

Definition dict_update {V} (d e : list (string * V)) : list (string * V) :=
  fold_left (fun acc kv => dict_set (fst kv) (snd kv) acc) e d.

(** [k in v] for a string [k] and a value [v] of unknown shape. *)
Definition py_contains (k : string) (v : pyval) : result bool :=
  match v with
  | PDict d => Ok (match dict_get k d with Some _ => true | None => false end)
  | PList l =>
      Ok (existsb (fun e => match e with PStr s => s =? k | _ => false end) l)
  | PStr s => Ok (contains k s)
  | _ => Raise (TypeError "argument is not iterable")
  end.

(** [v[k]] for a string [k]. *)
Definition py_getitem (v : pyval) (k : string) : result pyval :=
  match v with
  | PDict d =>
      match dict_get k d with
      | Some e => Ok e
      | None => Raise (KeyError k)
      end
  | PList _ | PStr _ => Raise (TypeError "indices must be integers")
  | _ => Raise (TypeError "object is not subscriptable")
  end.

Fixpoint chars (s : string) : list pyval :=
  match s with
  | EmptyString => []
  | String c s' => PStr (String c EmptyString) :: chars s'
  end.

(** The elements [list.extend(v)] appends. *)
Definition py_iter (v : pyval) : result (list pyval) :=
  match v with
  | PList l => Ok l
  | PStr s => Ok (chars s)
  | PDict d => Ok (map (fun kv => PStr (fst kv)) d)
  | _ => Raise (TypeError "object is not iterable")
  end.

(** *** Effects

    A computation over a state [S] either returns or raises, and
    leaves a state behind in both cases: what was mutated before an
    exception stays mutated. *)

Definition M (S A : Type) : Type := S -> result A * S.

Definition ret {S A} (a : A) : M S A := fun s => (Ok a, s).

Definition raise {S A} (e : exn) : M S A := fun s => (Raise e, s).

Definition bind {S A B} (m : M S A) (k : A -> M S B) : M S B :=
  fun s =>
    match m s with
    | (Ok a, s') => k a s'
    | (Raise e, s') => (Raise e, s')
    end.

(** [try: body  except Exception as e: handler(e)] *)
Definition try_except {S A} (body : M S A) (handler : exn -> M S A)
  : M S A :=
  fun s =>
    match body s with
    | (Ok a, s') => (Ok a, s')
    | (Raise e, s') => handler e s'
    end.

(** A value that may have failed to evaluate, as one step. *)
Definition lift_result {S A} (r : result A) : M S A := fun s => (r, s).

(** A method that is handed an object by reference runs on the state
    of that object together with its own local variable. *)
Definition read_object {O L} : M (O * L) O := fun st => (Ok (fst st), st).

Definition read_local {O L} : M (O * L) L := fun st => (Ok (snd st), st).

(** [local = l] *)
Definition assign {O L} (l : L) : M (O * L) unit :=
  fun st => (Ok tt, (fst st, l)).

(** [local.append(x)] *)
Definition append {O X} (x : X) : M (O * list X) unit :=
  fun st => (Ok tt, (fst st, (snd st ++ [x])%list)).

(** [local.extend(xs)] *)
Definition extend {O X} (xs : list X) : M (O * list X) unit :=
  fun st => (Ok tt, (fst st, (snd st ++ xs)%list)).

(** [for x in xs: body(x)] *)
Fixpoint for_each {S A} (xs : list A) (body : A -> M S unit) : M S unit :=
  match xs with
  | [] => ret tt
  | x :: xs' => bind (body x) (fun _ => for_each xs' body)
  end.

End Py.
Import Py.

Declare Scope py_scope.
Delimit Scope py_scope with py.
Notation "x <- m ;; k" := (bind m (fun x => k))
  (at level 61, m at next level, right associativity) : py_scope.
Notation "m ;;; k" := (bind m (fun _ => k))
  (at level 61, right associativity) : py_scope.

(* ================================================================== *)
(** ** app/models/workflow.py *)
(* ================================================================== *)

Module Models.

Inductive WorkflowNodeType : Type :=
| START | END | CLOUD_FUNCTION | CLOUD_RUN | PUBSUB_PUBLISH
| PUBSUB_SUBSCRIBE | HTTP_REQUEST | CONDITION | PARALLEL | DELAY
| ASSIGN | CALL | SWITCH | FOR_LOOP | TRY_CATCH.

Definition type_eqb (a b : WorkflowNodeType) : bool :=
  match a, b with
  | START, START | END, END | CLOUD_FUNCTION, CLOUD_FUNCTION
  | CLOUD_RUN, CLOUD_RUN | PUBSUB_PUBLISH, PUBSUB_PUBLISH
  | PUBSUB_SUBSCRIBE, PUBSUB_SUBSCRIBE | HTTP_REQUEST, HTTP_REQUEST
  | CONDITION, CONDITION | PARALLEL, PARALLEL | DELAY, DELAY
  | ASSIGN, ASSIGN | CALL, CALL | SWITCH, SWITCH
  | FOR_LOOP, FOR_LOOP | TRY_CATCH, TRY_CATCH => true
  | _, _ => false
  end.

(** Timestamps and canvas coordinates are carried, never inspected. *)
Definition datetime := Z.
Definition pyfloat := string.

Record WorkflowNodePosition : Type := {
  x : pyfloat;
  y : pyfloat
}.

Record WorkflowNodeConfig : Type := {
  name : string;
  description : option string;
  function_name : option string;
  service_name : option string;
  topic_name : option string;
  subscription_name : option string;
  url : option string;
  method : option string;
  headers : option (list (string * string));
  body : option (list (string * pyval));
  condition : option string;
  delay_seconds : option Z;
  variables : option (list (string * pyval));
  call_target : option string;
  call_args : option (list (string * pyval));
  switch_variable : option string;
  switch_cases : option (list (list (string * pyval)));
  loop_variable : option string;
  loop_range : option (list (string * pyval));
  try_steps : option (list string);
  catch_steps : option (list string);
  ai_prompt : option string;
  env_vars : option (list (string * string));
  memory : option string;
  cpu : option string;
  timeout : option string
}.

Record WorkflowNode : Type := {
  id : string;
  type : WorkflowNodeType;
  position : WorkflowNodePosition;
  config : WorkflowNodeConfig;
  inputs : list string;
  outputs : list string;
  created_at : datetime;
  updated_at : datetime
}.

Record WorkflowConnection : Type := {
  conn_id : string;
  source_node_id : string;
  target_node_id : string;
  source_handle : option string;
  target_handle : option string;
  conn_condition : option string
}.

Record WorkflowMetadata : Type := {
  meta_name : string;
  meta_description : option string;
  version : string;
  tags : list string;
  author : option string;
  project_id : option string;
  region : string;
  meta_timeout : option string;
  meta_created_at : datetime;
  meta_updated_at : datetime
}.

Record Workflow : Type := {
  wf_id : string;
  metadata : WorkflowMetadata;
  nodes : list WorkflowNode;
  connections : list WorkflowConnection
}.

(** [[node for node in v if node.type == t]] *)
Definition nodes_of_type (t : WorkflowNodeType) (v : list WorkflowNode)
  : list WorkflowNode :=
  filter (fun node => type_eqb (type node) t) v.

(** The [@validator('nodes')] of [Workflow]. *)
Definition validate_nodes (v : list WorkflowNode)
  : result (list WorkflowNode) :=
  match v with
  | [] => Raise (ValueError "Workflow must have at least one node")
  | _ =>
      let start_nodes := nodes_of_type START v in
      let end_nodes := nodes_of_type END v in
      if negb (List.length start_nodes =? 1)%nat then
        Raise (ValueError "Workflow must have exactly one start node")
      else if (List.length end_nodes <? 1)%nat then
        Raise (ValueError "Workflow must have at least one end node")
      else Ok v
  end.

(** Construction of a [Workflow] from its fields, as done by the model
    class when a request body is parsed: the field validator runs, and
    a [ValueError] it raises makes the construction fail with a
    validation error that carries its message. *)
Definition Workflow_init (i : string) (m : WorkflowMetadata)
    (ns : list WorkflowNode) (cs : list WorkflowConnection)
  : result Workflow :=
  match validate_nodes ns with
  | Ok v => Ok {| wf_id := i; metadata := m; nodes := v; connections := cs |}
  | Raise (ValueError msg) => Raise (ValidationError msg)
  | Raise e => Raise e
  end.

Record WorkflowGenerationRequest : Type := {
  workflow : Workflow;
  target_format : string;
  include_deployment : bool;
  ai_enhance : bool
}.

Record WorkflowGenerationResponse : Type := {
  workflow_id : string;
  generated_files : list (string * string);
  deployment_configs : option (list (string * string));
  ai_suggestions : option (list string);
  generation_time : pyfloat
}.

(** The strings of a list of values, when all of them are strings. *)
Fixpoint strs_of (l : list pyval) : option (list string) :=
  match l with
  | [] => Some []
  | PStr s :: l' => option_map (cons s) (strs_of l')
  | _ :: _ => None
  end.

(** Construction of the response.  The files and the configurations
    are dictionaries of strings by construction; the suggestions are
    values of any shape and the field [ai_suggestions], a list of
    [str], accepts them only when each is a string. *)
Definition WorkflowGenerationResponse_init (i : string)
    (files configs : list (string * string)) (suggestions : list pyval)
    (seconds : pyfloat) : result WorkflowGenerationResponse :=
  match strs_of suggestions with
  | Some strs =>
      Ok {| workflow_id := i;
            generated_files := files;
            deployment_configs := Some configs;
            ai_suggestions := Some strs;
            generation_time := seconds |}
  | None =>
      Raise (ValidationError "ai_suggestions: Input should be a valid string")
  end.

End Models.
Import Models.

(* ================================================================== *)
(** ** What the services depend on but do not define *)
(* ================================================================== *)

(** The fields of [app/core/config.py]'s [Settings] the services read. *)
Record Settings : Type := {
  GOOGLE_CLOUD_PROJECT : option string;
  GEMINI_API_KEY : option string;
  GEMINI_MODEL : string
}.

(** The state a request runs against: the prompts the generation
    collaborator has received so far, oldest first. *)
Definition World : Type := list string.

(** Library functions, the external collaborator and the text
    templates.  No property below depends on what they compute, only
    on where the services call them. *)
Record Env : Type := {
  settings : Settings;
  (** [json.loads]; [None] stands for [json.JSONDecodeError] *)
  json_loads : string -> option pyval;
  (** [yaml.dump(_, default_flow_style=False, sort_keys=False)], as the
      text it returns.  The library raises instead on a value nested
      beyond the recursion limit of the interpreter and on an integer
      beyond the digit limit of [str]; such calls are outside the
      model, and a property that names the text of a document
      describes the calls on which the library returns. *)
  yaml_dump : pyval -> string;
  (** [model.generate_content(prompt).text], which may depend on the
      prompts sent before *)
  model_generate_content : World -> string -> result string;
  (** [str(e)] *)
  str_exn : exn -> string;
  (** [name.lower().replace(' ', '_')] *)
  slug : string -> string;
  _build_workflow_prompt : Workflow -> string;
  _build_function_prompt : WorkflowNode -> string;
  _build_dockerfile_prompt : WorkflowNode -> string;
  _build_enhancement_prompt : WorkflowNode -> string;
  _generate_basic_function_code : WorkflowNode -> string;
  _generate_basic_service_code : WorkflowNode -> string;
  _generate_basic_dockerfile : WorkflowNode -> string;
  _generate_function_requirements : string;
  _generate_service_requirements : string;
  _generate_cloudbuild_config : Workflow -> string;
  _generate_terraform_config : Workflow -> string;
  _generate_deployment_script : Workflow -> string;
  (** the wall-clock seconds between two readings of the clock *)
  total_seconds : pyfloat
}.

(* ================================================================== *)
(** ** app/services/ai_service.py *)
(* ================================================================== *)

Module AIService.

Definition fence : string := "```".

Section WithEnv.
Context (env : Env).

(** [hasattr(self, 'model')]: [_configure_gemini] returns before
    creating the model when no API key is set. *)
Definition has_model : bool := truthy_str (GEMINI_API_KEY (settings env)).

Definition _generate_content (prompt : string) : M World string :=
  fun sent =>
    if negb has_model then
      (Raise (RuntimeError "Gemini API not configured"), sent)
    else
      (model_generate_content env sent prompt, (sent ++ [prompt])%list).

Definition _extract_yaml_from_response (response : string) : string :=
  if contains "```yaml" response then
    let start := (find response "```yaml" 0 + 7)%Z in
    let end_ := find response "```" start in
    strip (slice response start end_)
  else if contains "```" response then
    let start := (find response "```" 0 + 3)%Z in
    let end_ := find response "```" start in
    strip (slice response start end_)
  else strip response.

Definition _extract_code_from_response (response language : string)
  : string :=
  let code_block := "```" ++ language in
  if contains code_block response then
    let start := (find response code_block 0 + len code_block)%Z in
    let end_ := find response "```" start in
    strip (slice response start end_)
  else if contains "```" response then
    let start := (find response "```" 0 + 3)%Z in
    let end_ := find response "```" start in
    strip (slice response start end_)
  else strip response.

(** The text [_extract_json_from_response] hands to [json.loads]. *)
Definition json_str_of (response : string) : string :=
  if contains "```json" response then
    let start := (find response "```json" 0 + 7)%Z in
    let end_ := find response "```" start in
    strip (slice response start end_)
  else if contains "```" response then
    let start := (find response "```" 0 + 3)%Z in
    let end_ := find response "```" start in
    strip (slice response start end_)
  else strip response.

Definition _extract_json_from_response (response : string) : pyval :=
  let json_str := json_str_of response in
  match json_loads env json_str with
  | Some v => v
  | None => PDict [("raw_response", PStr json_str)]
  end.

Local Open Scope py_scope.

(** The [except Exception as e: ...; raise] around each of the
    following bodies logs and re-raises [e]. *)
Definition reraise {A} (body : M World A) : M World A :=
  try_except body (fun e => raise e).

Definition generate_workflow_yaml (workflow : Workflow) : M World string :=
  reraise (
    let prompt := _build_workflow_prompt env workflow in
    response <- _generate_content prompt ;;
    ret (_extract_yaml_from_response response)).

Definition generate_cloud_function_code (node : WorkflowNode)
  : M World string :=
  if negb (type_eqb (type node) CLOUD_FUNCTION) then
    raise (ValueError "Node must be of type CLOUD_FUNCTION")
  else reraise (
    let prompt := _build_function_prompt env node in
    response <- _generate_content prompt ;;
    ret (_extract_code_from_response response "python")).

Definition generate_cloud_run_dockerfile (node : WorkflowNode)
  : M World string :=
  if negb (type_eqb (type node) CLOUD_RUN) then
    raise (ValueError "Node must be of type CLOUD_RUN")
  else reraise (
    let prompt := _build_dockerfile_prompt env node in
    response <- _generate_content prompt ;;
    ret (_extract_code_from_response response "dockerfile")).

Definition enhance_node_configuration (node : WorkflowNode)
  : M World pyval :=
  reraise (
    let prompt := _build_enhancement_prompt env node in
    response <- _generate_content prompt ;;
    ret (_extract_json_from_response response)).

End WithEnv.
End AIService.

(* ================================================================== *)
(** ** app/services/workflow_service.py *)
(* ================================================================== *)

Module WorkflowService.

Definition start_issue : string := "Workflow must have exactly one START node".
Definition end_issue : string := "Workflow must have at least one END node".

(** [f"Node '{node.config.name}' is not connected"] *)
Definition not_connected_issue (node : WorkflowNode) : string :=
  "Node '" ++ name (config node) ++ "' is not connected".

(** [x in s] for a set [s] of strings; the sets of [validate_workflow]
    are only ever tested for membership. *)
Definition mem (x : string) (s : list string) : bool :=
  existsb (String.eqb x) s.

(** [node.type not in [START, END]] *)
Definition is_inner (node : WorkflowNode) : bool :=
  negb (type_eqb (type node) START || type_eqb (type node) END).

Definition _validate_node_config (node : WorkflowNode) : list string :=
  let cfg := config node in
  match type node with
  | CLOUD_FUNCTION =>
      if negb (truthy_str (function_name cfg)) then
        ["Cloud Function node '" ++ name cfg ++ "' missing function_name"]
      else []
  | CLOUD_RUN =>
      if negb (truthy_str (service_name cfg)) then
        ["Cloud Run node '" ++ name cfg ++ "' missing service_name"]
      else []
  | PUBSUB_PUBLISH =>
      if negb (truthy_str (topic_name cfg)) then
        ["Pub/Sub Publish node '" ++ name cfg ++ "' missing topic_name"]
      else []
  | PUBSUB_SUBSCRIBE =>
      if negb (truthy_str (subscription_name cfg)) then
        ["Pub/Sub Subscribe node '" ++ name cfg
           ++ "' missing subscription_name"]
      else []
  | HTTP_REQUEST =>
      if negb (truthy_str (url cfg)) then
        ["HTTP Request node '" ++ name cfg ++ "' missing url"]
      else []
  | CONDITION =>
      if negb (truthy_str (condition cfg)) then
        ["Condition node '" ++ name cfg ++ "' missing condition"]
      else []
  | _ => []
  end.

(** One iteration of the orphan loop on the list [issues]. *)
Definition orphan_step (connection_sources connection_targets : list string)
    (issues : list string) (node : WorkflowNode) : list string :=
  if is_inner node then
    if negb (mem (id node) connection_targets)
       && negb (mem (id node) connection_sources)
    then (issues ++ [not_connected_issue node])%list
    else issues
  else issues.

(** One iteration of the configuration loop. *)
Definition config_step (issues : list string) (node : WorkflowNode)
  : list string :=
  (issues ++ _validate_node_config node)%list.

Definition validate_workflow (workflow : Workflow) : list string :=
  let issues : list string := [] in
  let start_nodes := nodes_of_type START (nodes workflow) in
  let end_nodes := nodes_of_type END (nodes workflow) in
  let issues :=
    if negb (List.length start_nodes =? 1)%nat
    then (issues ++ [start_issue])%list else issues in
  let issues :=
    if (List.length end_nodes =? 0)%nat
    then (issues ++ [end_issue])%list else issues in
  let connection_sources := map source_node_id (connections workflow) in
  let connection_targets := map target_node_id (connections workflow) in
  let issues :=
    fold_left (orphan_step connection_sources connection_targets)
              (nodes workflow) issues in
  let issues := fold_left config_step (nodes workflow) issues in
  issues.

Section WithEnv.
Context (env : Env).

Definition _node_to_workflow_step (node : WorkflowNode) : pyval :=
  let cfg := config node in
  match type node with
  | CLOUD_FUNCTION =>
      PDict [
        ("call", PStr
           "googleapis.cloudfunctions.v1.projects.locations.functions.call");
        ("args", PDict [
           ("name", PStr ("projects/"
                          ++ fmt_opt (GOOGLE_CLOUD_PROJECT (settings env))
                          ++ "/locations/" ++ fmt_opt (function_name cfg)));
           ("data", PStr "${input}")]);
        ("result", PStr "function_result")]
  | HTTP_REQUEST =>
      PDict [
        ("call", PStr "http.request");
        ("args", PDict [
           ("url", opt_str (url cfg));
           ("method", PStr (str_or (method cfg) "GET"));
           ("headers",
             PDict (if truthy_dict (headers cfg)
                    then match headers cfg with
                         | Some h => map (fun kv => (fst kv, PStr (snd kv))) h
                         | None => []
                         end
                    else []));
           ("body",
             PDict (if truthy_dict (body cfg)
                    then match body cfg with Some b => b | None => [] end
                    else []))]);
        ("result", PStr "http_result")]
  | CONDITION =>
      PDict [
        ("switch", PList [
           PDict [("condition", opt_str (condition cfg));
                  ("next", PStr "continue")]]);
        ("next", PStr "end")]
  | DELAY =>
      PDict [
        ("call", PStr "sys.sleep");
        ("args", PDict [
           ("seconds",
             PInt (if truthy_int (delay_seconds cfg)
                   then match delay_seconds cfg with
                        | Some z => z
                        | None => 1%Z
                        end
                   else 1%Z))])]
  | _ =>
      PDict [("assign", PList [
                PDict [("result", PStr ("Processed " ++ name cfg))]])]
  end.

(** [enumerate(xs)] *)
Definition enumerate {A} (xs : list A) : list (nat * A) :=
  combine (seq 0 (List.length xs)) xs.

(** One iteration of the compilation loop on
    [workflow_def["main"]["steps"]]. *)
Definition compile_step (steps : list pyval) (i_node : nat * WorkflowNode)
  : list pyval :=
  let '(i, node) := i_node in
  match type node with
  | START => steps
  | END =>
      let key := "end_step_" ++ fmt_nat i in
      (steps ++ [PDict [(key, PDict [("return", PStr "${result}")])]])%list
  | _ =>
      let step := _node_to_workflow_step node in
      let key := "step_" ++ fmt_nat i in
      (steps ++ [PDict [(key, step)]])%list
  end.

(** The step list once the loop is over. *)
Definition workflow_steps (workflow : Workflow) : list pyval :=
  fold_left compile_step (enumerate (nodes workflow)) [].

Definition workflow_def (workflow : Workflow) : pyval :=
  PDict [("main", PDict [("steps", PList (workflow_steps workflow))])].

Definition _generate_basic_workflow_yaml (workflow : Workflow) : string :=
  yaml_dump env (workflow_def workflow).

Local Open Scope py_scope.

(** *** The validator and the compiler as methods

    [validate_workflow] and [_generate_basic_workflow_yaml] above are
    the values the two methods return.  Below are the same bodies
    statement by statement, running on the workflow object they are
    handed and on their local list ([issues], respectively the step
    list of [workflow_def]). *)

Definition validate_workflow_method : M (Workflow * list string) (list string) :=
  assign [] ;;;
  workflow <- read_object ;;
  let start_nodes := nodes_of_type START (nodes workflow) in
  let end_nodes := nodes_of_type END (nodes workflow) in
  (if negb (List.length start_nodes =? 1)%nat
   then append start_issue else ret tt) ;;;
  (if (List.length end_nodes =? 0)%nat
   then append end_issue else ret tt) ;;;
  let connection_sources := map source_node_id (connections workflow) in
  let connection_targets := map target_node_id (connections workflow) in
  for_each (nodes workflow) (fun node =>
    if is_inner node then
      if negb (mem (id node) connection_targets)
         && negb (mem (id node) connection_sources)
      then append (not_connected_issue node)
      else ret tt
    else ret tt) ;;;
  for_each (nodes workflow) (fun node =>
    let node_issues := _validate_node_config node in
    extend node_issues) ;;;
  read_local.

Definition _generate_basic_workflow_yaml_method
  : M (Workflow * list pyval) string :=
  assign [] ;;;
  workflow <- read_object ;;
  for_each (enumerate (nodes workflow)) (fun i_node =>
    let '(i, node) := i_node in
    match type node with
    | START => ret tt
    | END =>
        let key := "end_step_" ++ fmt_nat i in
        append (PDict [(key, PDict [("return", PStr "${result}")])])
    | _ =>
        let step := _node_to_workflow_step node in
        let key := "step_" ++ fmt_nat i in
        append (PDict [(key, step)])
    end) ;;;
  steps <- read_local ;;
  ret (yaml_dump env (PDict [("main", PDict [("steps", PList steps)])])).

Definition _generate_function_files (node : WorkflowNode) (ai_enhance : bool)
  : M World (list (string * string)) :=
  let cfg := config node in
  let function_name :=
    if truthy_str (function_name cfg) then fmt_opt (function_name cfg)
    else slug env (name cfg) in
  main_py <- (if ai_enhance
              then AIService.generate_cloud_function_code env node
              else ret (_generate_basic_function_code env node)) ;;
  ret (dict_set ("functions/" ++ function_name ++ "/requirements.txt")
                (_generate_function_requirements env)
        (dict_set ("functions/" ++ function_name ++ "/main.py") main_py [])).

Definition _generate_service_files (node : WorkflowNode) (ai_enhance : bool)
  : M World (list (string * string)) :=
  let cfg := config node in
  let service_name :=
    if truthy_str (service_name cfg) then fmt_opt (service_name cfg)
    else slug env (name cfg) in
  dockerfile <- (if ai_enhance
                 then AIService.generate_cloud_run_dockerfile env node
                 else ret (_generate_basic_dockerfile env node)) ;;
  ret (dict_set ("services/" ++ service_name ++ "/requirements.txt")
                (_generate_service_requirements env)
        (dict_set ("services/" ++ service_name ++ "/main.py")
                  (_generate_basic_service_code env node)
          (dict_set ("services/" ++ service_name ++ "/Dockerfile")
                    dockerfile []))).

Definition _generate_deployment_configs (workflow : Workflow)
  : list (string * string) :=
  dict_set "deploy.sh" (_generate_deployment_script env workflow)
    (dict_set "terraform/main.tf" (_generate_terraform_config env workflow)
      (dict_set "cloudbuild.yaml" (_generate_cloudbuild_config env workflow)
         [])).

Definition general_suggestions : list pyval :=
  [ PStr "Consider adding error handling and retry logic";
    PStr "Implement proper logging and monitoring";
    PStr "Add input validation for all endpoints";
    PStr "Consider using Cloud Monitoring for observability";
    PStr "Implement proper authentication and authorization" ].

(** The body of [_generate_ai_suggestions] runs on the collaborator's
    state together with the local list [suggestions], which keeps what
    was appended before an exception. *)
Definition SuggestionState : Type := World * list pyval.

Definition on_world {A} (m : M World A) : M SuggestionState A :=
  fun st =>
    let '(r, sent) := m (fst st) in (r, (sent, snd st)).

(** One iteration of the loop over the nodes. *)
Definition suggestion_step (node : WorkflowNode) : M SuggestionState unit :=
  if truthy_str (ai_prompt (config node)) then
    enhanced_config <- on_world (AIService.enhance_node_configuration env node) ;;
    has <- lift_result (py_contains "suggestions" enhanced_config) ;;
    if has : bool then
      v <- lift_result (py_getitem enhanced_config "suggestions") ;;
      items <- lift_result (py_iter v) ;;
      extend items
    else ret tt
  else ret tt.

(** The loop over the nodes. *)
Definition collect_suggestions (ns : list WorkflowNode)
  : M SuggestionState unit :=
  for_each ns suggestion_step.

Definition suggestions_body (workflow : Workflow) : M SuggestionState unit :=
  collect_suggestions (nodes workflow) ;;;
  extend general_suggestions.

Definition _generate_ai_suggestions (workflow : Workflow)
  : M World (list pyval) :=
  fun sent =>
    let '(_, (sent', suggestions)) :=
      try_except (suggestions_body workflow)
                 (fun _ => ret tt)
                 (sent, []) in
    (Ok (firstn 10 suggestions), sent').

(** The loop of [generate_workflow_code] over the nodes, on the
    dictionary [generated_files]. *)
Fixpoint generate_node_files (ns : list WorkflowNode) (ai_enhance : bool)
    (generated_files : list (string * string))
  : M World (list (string * string)) :=
  match ns with
  | [] => ret generated_files
  | node :: rest =>
      match type node with
      | CLOUD_FUNCTION =>
          function_code <- _generate_function_files node ai_enhance ;;
          generate_node_files rest ai_enhance
            (dict_update generated_files function_code)
      | CLOUD_RUN =>
          service_files <- _generate_service_files node ai_enhance ;;
          generate_node_files rest ai_enhance
            (dict_update generated_files service_files)
      | _ => generate_node_files rest ai_enhance generated_files
      end
  end.

Definition generate_workflow_code (request : WorkflowGenerationRequest)
  : M World WorkflowGenerationResponse :=
  let workflow := workflow request in
  AIService.reraise (
    workflow_yaml <- (if ai_enhance request
                      then AIService.generate_workflow_yaml env workflow
                      else ret (_generate_basic_workflow_yaml workflow)) ;;
    let generated_files := dict_set "workflow.yaml" workflow_yaml [] in
    generated_files <- generate_node_files (nodes workflow)
                         (ai_enhance request) generated_files ;;
    let deployment_configs :=
      if include_deployment request
      then _generate_deployment_configs workflow else [] in
    ai_suggestions <- (if ai_enhance request
                       then _generate_ai_suggestions workflow
                       else ret []) ;;
    response <- lift_result
                  (WorkflowGenerationResponse_init
                     (wf_id workflow) generated_files deployment_configs
                     ai_suggestions (total_seconds env)) ;;
    ret response).

End WithEnv.
End WorkflowService.

(* ================================================================== *)
(** ** app/api/v1/endpoints/workflows.py *)
(* ================================================================== *)

Module Endpoints.

(** What the web framework sends back for one call of a handler. *)
Inductive HttpResponse (A : Type) : Type :=
| Response200   (payload : A)
| ErrorResponse (status_code : Z) (detail : pyval).
Arguments Response200 {A} payload.
Arguments ErrorResponse {A} status_code detail.

Definition status {A} (r : HttpResponse A) : Z :=
  match r with
  | Response200 _ => 200%Z
  | ErrorResponse s _ => s
  end.

(** The JSON body of a request that carries a workflow: the fields the
    [Workflow] model is constructed from. *)
Record WorkflowBody : Type := {
  body_id : string;
  body_metadata : WorkflowMetadata;
  body_nodes : list WorkflowNode;
  body_connections : list WorkflowConnection
}.

Record GenerationRequestBody : Type := {
  body_workflow : WorkflowBody;
  body_target_format : string;
  body_include_deployment : bool;
  body_ai_enhance : bool
}.

Definition parse_workflow (b : WorkflowBody) : result Workflow :=
  Workflow_init (body_id b) (body_metadata b) (body_nodes b)
                (body_connections b).

Definition parse_generation_request (b : GenerationRequestBody)
  : result WorkflowGenerationRequest :=
  match parse_workflow (body_workflow b) with
  | Ok w => Ok {| workflow := w;
                  target_format := body_target_format b;
                  include_deployment := body_include_deployment b;
                  ai_enhance := body_ai_enhance b |}
  | Raise e => Raise e
  end.

Record ValidationReport : Type := {
  report_workflow_id : string;
  is_valid : bool;
  issues : list string;
  message : string
}.

Record Preview : Type := {
  preview_workflow_id : string;
  yaml_content : option string;
  validation_issues : list string;
  preview_message : string
}.

Section WithEnv.
Context (env : Env).

(** The framework around a handler, for a request that has passed the
    middleware of app/main.py and whose body has been read: the body
    is parsed into the handler's parameter first and a model that
    cannot be constructed is answered with 422 without calling the
    handler; an [HTTPException] raised by the handler becomes a
    response with its status and detail; any other exception is a
    plain 500.  What the application answers before that point (the
    check of the Host header, a body whose bytes cannot be read) is
    outside the model. *)
Definition serve {B A} (parsed : result B) (handler : B -> M World A)
  : World -> HttpResponse A * World :=
  fun sent =>
    match parsed with
    | Raise e => (ErrorResponse 422 (PList [PStr (str_exn env e)]), sent)
    | Ok b =>
        match handler b sent with
        | (Ok a, sent') => (Response200 a, sent')
        | (Raise (HTTPException s d), sent') => (ErrorResponse s d, sent')
        | (Raise _, sent') =>
            (ErrorResponse 500 (PStr "Internal Server Error"), sent')
        end
    end.

Local Open Scope py_scope.

(** [except Exception as e: ...; raise HTTPException(status_code=500,
    detail=str(e))], the handler every endpoint body is wrapped in. *)
Definition internal_error {A} (e : exn) : M World A :=
  raise (HTTPException 500 (PStr (str_exn env e))).

Definition validation_failed (validation_issues : list string) : exn :=
  HTTPException 400
    (PDict [("message", PStr "Workflow validation failed");
            ("issues", PList (map PStr validation_issues))]).

Definition generate_workflow_code (request : WorkflowGenerationRequest)
  : M World WorkflowGenerationResponse :=
  try_except (
    let validation_issues :=
      WorkflowService.validate_workflow (workflow request) in
    match validation_issues with
    | _ :: _ => raise (validation_failed validation_issues)
    | [] =>
        response <- WorkflowService.generate_workflow_code env request ;;
        ret response
    end)
    internal_error.

Definition validate_workflow (workflow : Workflow)
  : M World ValidationReport :=
  try_except (
    let issues := WorkflowService.validate_workflow workflow in
    let is_valid := (List.length issues =? 0)%nat in
    ret {| report_workflow_id := wf_id workflow;
           is_valid := is_valid;
           issues := issues;
           message := if is_valid then "Workflow is valid"
                      else "Workflow has validation issues" |})
    internal_error.

Definition preview_workflow_yaml (workflow : Workflow) : M World Preview :=
  try_except (
    let validation_issues := WorkflowService.validate_workflow workflow in
    match validation_issues with
    | _ :: _ =>
        ret {| preview_workflow_id := wf_id workflow;
               yaml_content := None;
               validation_issues := validation_issues;
               preview_message :=
                 "Cannot generate preview due to validation issues" |}
    | [] =>
        let yaml_content :=
          WorkflowService._generate_basic_workflow_yaml env workflow in
        ret {| preview_workflow_id := wf_id workflow;
               yaml_content := Some yaml_content;
               validation_issues := [];
               preview_message := "YAML preview generated successfully" |}
    end)
    internal_error.

(** [POST /workflows/generate] and [POST /workflows/validate] as the
    client sees them. *)
Definition post_generate (b : GenerationRequestBody)
  : World -> HttpResponse WorkflowGenerationResponse * World :=
  serve (parse_generation_request b) generate_workflow_code.

Definition post_validate (b : WorkflowBody)
  : World -> HttpResponse ValidationReport * World :=
  serve (parse_workflow b) validate_workflow.

Definition post_preview (b : WorkflowBody)
  : World -> HttpResponse Preview * World :=
  serve (parse_workflow b) preview_workflow_yaml.

End WithEnv.
End Endpoints.

(* ================================================================== *)
(** ** The static endpoints of app/api/v1/endpoints/workflows.py *)
(* ================================================================== *)

Module Catalog.

(** [node_type.value] *)
Definition value (t : WorkflowNodeType) : string :=
  match t with
  | START => "start"
  | END => "end"
  | CLOUD_FUNCTION => "cloud_function"
  | CLOUD_RUN => "cloud_run"
  | PUBSUB_PUBLISH => "pubsub_publish"
  | PUBSUB_SUBSCRIBE => "pubsub_subscribe"
  | HTTP_REQUEST => "http_request"
  | CONDITION => "condition"
  | PARALLEL => "parallel"
  | DELAY => "delay"
  | ASSIGN => "assign"
  | CALL => "call"
  | SWITCH => "switch"
  | FOR_LOOP => "for_loop"
  | TRY_CATCH => "try_catch"
  end.

(** [for node_type in WorkflowNodeType]: the members in definition
    order. *)
Definition all_types : list WorkflowNodeType :=
  [START; END; CLOUD_FUNCTION; CLOUD_RUN; PUBSUB_PUBLISH; PUBSUB_SUBSCRIBE;
   HTTP_REQUEST; CONDITION; PARALLEL; DELAY; ASSIGN; CALL; SWITCH; FOR_LOOP;
   TRY_CATCH].

(** [s.replace(old, new)] for single characters. *)
Fixpoint replace_char (old new : ascii) (s : string) : string :=
  match s with
  | EmptyString => EmptyString
  | String c s' =>
      String (if (c =? old)%char then new else c) (replace_char old new s')
  end.

Definition is_lower (c : ascii) : bool :=
  let n := nat_of_ascii c in ((97 <=? n) && (n <=? 122))%nat.

Definition is_upper (c : ascii) : bool :=
  let n := nat_of_ascii c in ((65 <=? n) && (n <=? 90))%nat.

(** [s.title()] on ASCII text: a letter that follows a letter is
    lowered, any other letter is raised. *)
Fixpoint title_from (after_letter : bool) (s : string) : string :=
  match s with
  | EmptyString => EmptyString
  | String c s' =>
      if is_lower c then
        String (if after_letter then c
                else ascii_of_nat (nat_of_ascii c - 32))
               (title_from true s')
      else if is_upper c then
        String (if after_letter then ascii_of_nat (nat_of_ascii c + 32)
                else c)
               (title_from true s')
      else String c (title_from false s')
  end.

Definition title (s : string) : string := title_from false s.

(** The dictionary [descriptions] of [_get_node_type_description]. *)
Definition descriptions : list (WorkflowNodeType * string) :=
  [ (START, "Starting point of the workflow");
    (END, "End point of the workflow");
    (CLOUD_FUNCTION, "Execute a Google Cloud Function");
    (CLOUD_RUN, "Call a Google Cloud Run service");
    (PUBSUB_PUBLISH, "Publish a message to Pub/Sub topic");
    (PUBSUB_SUBSCRIBE, "Subscribe to Pub/Sub messages");
    (HTTP_REQUEST, "Make an HTTP request to external service");
    (CONDITION, "Conditional branching based on expression");
    (PARALLEL, "Execute multiple steps in parallel");
    (DELAY, "Add a delay/wait in the workflow");
    (ASSIGN, "Assign values to variables");
    (CALL, "Call another workflow or subworkflow");
    (SWITCH, "Switch statement for multiple conditions");
    (FOR_LOOP, "Loop through a collection of items");
    (TRY_CATCH, "Error handling with try/catch blocks") ].

(** [d.get(k, default)] on a dictionary keyed by node types. *)
Fixpoint get_or (d : list (WorkflowNodeType * string)) (k : WorkflowNodeType)
    (default : string) : string :=
  match d with
  | [] => default
  | (k', v) :: d' => if type_eqb k k' then v else get_or d' k default
  end.

Definition _get_node_type_description (node_type : WorkflowNodeType)
  : string :=
  get_or descriptions node_type "No description available".

Record NodeTypeEntry : Type := {
  entry_type : string;
  entry_name : string;
  entry_description : string
}.

Definition get_workflow_node_types : list NodeTypeEntry :=
  map (fun node_type =>
         {| entry_type := value node_type;
            entry_name := title (replace_char "_" " " (value node_type));
            entry_description := _get_node_type_description node_type |})
      all_types.

(** *** Templates

    A template is the JSON of a workflow; it is modelled as the body
    it is once posted back, with the defaults of the model classes
    for the fields it leaves out.  [uuid] is the fresh identifier of
    the template and [now] the time of construction. *)

Definition template_config (n : string)
    (desc fn sub topic u : option string) : WorkflowNodeConfig :=
  {| name := n; description := desc; function_name := fn;
     service_name := None; topic_name := topic; subscription_name := sub;
     url := u; method := Some "GET"; headers := None; body := None;
     condition := None; delay_seconds := None; variables := None;
     call_target := None; call_args := None; switch_variable := None;
     switch_cases := None; loop_variable := None; loop_range := None;
     try_steps := None; catch_steps := None; ai_prompt := None;
     env_vars := None; memory := None; cpu := None; timeout := None |}.

Definition template_node (now : datetime) (i : string) (t : WorkflowNodeType)
    (px : pyfloat) (c : WorkflowNodeConfig) (ins outs : list string)
  : WorkflowNode :=
  {| id := i; type := t; position := {| x := px; y := "100" |};
     config := c; inputs := ins; outputs := outs;
     created_at := now; updated_at := now |}.

Definition template_connection (i src tgt : string) : WorkflowConnection :=
  {| conn_id := i; source_node_id := src; target_node_id := tgt;
     source_handle := None; target_handle := None; conn_condition := None |}.

Definition template_metadata (now : datetime) (n d : string)
    (t : list string) : WorkflowMetadata :=
  {| meta_name := n; meta_description := Some d; version := "1.0.0";
     tags := t; author := None; project_id := None;
     region := "us-central1"; meta_timeout := None;
     meta_created_at := now; meta_updated_at := now |}.

Definition _create_simple_http_template (uuid : string) (now : datetime)
  : Endpoints.WorkflowBody :=
  {| Endpoints.body_id := uuid;
     Endpoints.body_metadata :=
       template_metadata now "simple-http-workflow"
         "A simple workflow that makes HTTP requests" ["http"; "simple"];
     Endpoints.body_nodes :=
       [ template_node now "start-1" START "100"
           (template_config "Start" None None None None None)
           [] ["http-1"];
         template_node now "http-1" HTTP_REQUEST "300"
           (template_config "HTTP Request" (Some "Make an HTTP request")
              None None None (Some "https://api.example.com/data"))
           ["start-1"] ["end-1"];
         template_node now "end-1" END "500"
           (template_config "End" None None None None None)
           ["http-1"] [] ];
     Endpoints.body_connections :=
       [ template_connection "conn-1" "start-1" "http-1";
         template_connection "conn-2" "http-1" "end-1" ] |}.

Definition _create_function_chain_template (uuid : string) (now : datetime)
  : Endpoints.WorkflowBody :=
  {| Endpoints.body_id := uuid;
     Endpoints.body_metadata :=
       template_metadata now "function-chain-workflow"
         "Chain multiple Cloud Functions together" ["functions"; "chain"];
     Endpoints.body_nodes :=
       [ template_node now "start-1" START "100"
           (template_config "Start" None None None None None)
           [] ["func-1"];
         template_node now "func-1" CLOUD_FUNCTION "300"
           (template_config "Process Data" (Some "Process incoming data")
              (Some "process-data") None None None)
           ["start-1"] ["func-2"];
         template_node now "func-2" CLOUD_FUNCTION "500"
           (template_config "Transform Data" (Some "Transform processed data")
              (Some "transform-data") None None None)
           ["func-1"] ["end-1"];
         template_node now "end-1" END "700"
           (template_config "End" None None None None None)
           ["func-2"] [] ];
     Endpoints.body_connections :=
       [ template_connection "conn-1" "start-1" "func-1";
         template_connection "conn-2" "func-1" "func-2";
         template_connection "conn-3" "func-2" "end-1" ] |}.

Definition _create_pubsub_processing_template (uuid : string) (now : datetime)
  : Endpoints.WorkflowBody :=
  {| Endpoints.body_id := uuid;
     Endpoints.body_metadata :=
       template_metadata now "pubsub-processing-workflow"
         "Process messages from Pub/Sub topics" ["pubsub"; "messaging"];
     Endpoints.body_nodes :=
       [ template_node now "start-1" START "100"
           (template_config "Start" None None None None None)
           [] ["pubsub-1"];
         template_node now "pubsub-1" PUBSUB_SUBSCRIBE "300"
           (template_config "Subscribe to Messages"
              (Some "Subscribe to incoming messages")
              None (Some "message-subscription") None None)
           ["start-1"] ["func-1"];
         template_node now "func-1" CLOUD_FUNCTION "500"
           (template_config "Process Message"
              (Some "Process the received message")
              (Some "process-message") None None None)
           ["pubsub-1"] ["pubsub-2"];
         template_node now "pubsub-2" PUBSUB_PUBLISH "700"
           (template_config "Publish Result" (Some "Publish processing result")
              None None (Some "result-topic") None)
           ["func-1"] ["end-1"];
         template_node now "end-1" END "900"
           (template_config "End" None None None None None)
           ["pubsub-2"] [] ];
     Endpoints.body_connections :=
       [ template_connection "conn-1" "start-1" "pubsub-1";
         template_connection "conn-2" "pubsub-1" "func-1";
         template_connection "conn-3" "func-1" "pubsub-2";
         template_connection "conn-4" "pubsub-2" "end-1" ] |}.

Record Template : Type := {
  template_id : string;
  template_name : string;
  template_description : string;
  template : Endpoints.WorkflowBody
}.

(** [get_workflow_templates]; the three identifiers are the values of
    the three calls of [uuid.uuid4()]. *)
Definition get_workflow_templates (uuid1 uuid2 uuid3 : string)
    (now : datetime) : list Template :=
  [ {| template_id := "simple-http-workflow";
       template_name := "Simple HTTP Workflow";
       template_description := "A basic workflow that makes HTTP requests";
       template := _create_simple_http_template uuid1 now |};
    {| template_id := "function-chain-workflow";
       template_name := "Function Chain Workflow";
       template_description := "Chain multiple Cloud Functions together";
       template := _create_function_chain_template uuid2 now |};
    {| template_id := "pubsub-processing-workflow";
       template_name := "Pub/Sub Processing Workflow";
       template_description := "Process messages from Pub/Sub topics";
       template := _create_pubsub_processing_template uuid3 now |} ].

End Catalog.

(* ================================================================== *)
(** ** demo.py *)
(* ================================================================== *)

Module Demo.

Definition demo_config (n : string) (desc u fn hint : option string)
  : WorkflowNodeConfig :=
  {| name := n; description := desc; function_name := fn;
     service_name := None; topic_name := None; subscription_name := None;
     url := u; method := Some "GET"; headers := None; body := None;
     condition := None; delay_seconds := None; variables := None;
     call_target := None; call_args := None; switch_variable := None;
     switch_cases := None; loop_variable := None; loop_range := None;
     try_steps := None; catch_steps := None; ai_prompt := hint;
     env_vars := None; memory := None; cpu := None; timeout := None |}.

Definition demo_node (now : datetime) (i : string) (t : WorkflowNodeType)
    (px : pyfloat) (c : WorkflowNodeConfig) (ins outs : list string)
  : WorkflowNode :=
  {| id := i; type := t; position := {| x := px; y := "100" |};
     config := c; inputs := ins; outputs := outs;
     created_at := now; updated_at := now |}.

Definition demo_connection (i src tgt : string) : WorkflowConnection :=
  {| conn_id := i; source_node_id := src; target_node_id := tgt;
     source_handle := None; target_handle := None; conn_condition := None |}.

(** [create_sample_workflow]: the construction of the demo workflow. *)
Definition create_sample_workflow (workflow_id : string) (now : datetime)
  : result Workflow :=
  let metadata :=
    {| meta_name := "demo-workflow";
       meta_description :=
         Some "A demo workflow for testing FlowNinjas Core";
       version := "1.0.0"; tags := []; author := Some "FlowNinjas Demo";
       project_id := Some "demo-project"; region := "us-central1";
       meta_timeout := None;
       meta_created_at := now; meta_updated_at := now |} in
  let nodes :=
    [ demo_node now "start-1" START "100"
        (demo_config "Start" None None None None) [] ["http-1"];
      demo_node now "http-1" HTTP_REQUEST "300"
        (demo_config "Fetch Data" (Some "Fetch data from external API")
           (Some "https://jsonplaceholder.typicode.com/posts/1") None None)
        ["start-1"] ["func-1"];
      demo_node now "func-1" CLOUD_FUNCTION "500"
        (demo_config "Process Data" (Some "Process the fetched data") None
           (Some "process-data")
           (Some "Create a function that processes JSON data and extracts key information"))
        ["http-1"] ["end-1"];
      demo_node now "end-1" END "700"
        (demo_config "End" None None None None) ["func-1"] [] ] in
  let connections :=
    [ demo_connection "conn-1" "start-1" "http-1";
      demo_connection "conn-2" "http-1" "func-1";
      demo_connection "conn-3" "func-1" "end-1" ] in
  Workflow_init workflow_id metadata nodes connections.

(** The request [demo_workflow_generation] makes for a workflow. *)
Definition demo_request (workflow : Workflow) : WorkflowGenerationRequest :=
  {| workflow := workflow; target_format := "yaml";
     include_deployment := true; ai_enhance := false |}.

End Demo.

(* ================================================================== *)
(** ** A concrete environment for the examples *)
(* ================================================================== *)

Module Sample.

(** *** A JSON decoder

    Recursive descent over the grammar of JSON texts: the three
    literals, integers, numbers with a fraction or an exponent (kept
    as their lexeme), strings with the single-character escapes,
    arrays and objects.  The examples instantiate [json.loads] with
    it. *)

Definition is_json_ws (c : ascii) : bool :=
  let n := nat_of_ascii c in
  ((n =? 32) || (n =? 9) || (n =? 10) || (n =? 13))%nat.

Fixpoint skip_ws (s : string) : string :=
  match s with
  | String c s' => if is_json_ws c then skip_ws s' else s
  | EmptyString => EmptyString
  end.

Definition is_digit (c : ascii) : bool :=
  let n := nat_of_ascii c in ((48 <=? n) && (n <=? 57))%nat.

(** [expect lit s]: [s] without its prefix [lit]. *)
Definition expect (lit s : string) : option string :=
  if startswith s lit then Some (skip (String.length lit) s) else None.

Definition quote_char : ascii := ascii_of_nat 34.

Definition unescape (c : ascii) : option ascii :=
  if (c =? quote_char)%char then Some quote_char
  else match c with
       | "\"%char => Some "\"%char
       | "/"%char => Some "/"%char
       | "b"%char => Some (ascii_of_nat 8)
       | "f"%char => Some (ascii_of_nat 12)
       | "n"%char => Some (ascii_of_nat 10)
       | "r"%char => Some (ascii_of_nat 13)
       | "t"%char => Some (ascii_of_nat 9)
       | _ => None
       end.

(** The characters of a string literal after its opening quote. *)
Fixpoint string_body (s : string) : option (string * string) :=
  match s with
  | EmptyString => None
  | String c s' =>
      if (c =? quote_char)%char then Some (EmptyString, s')
      else if (c =? "\")%char then
        match s' with
        | String e s'' =>
            match unescape e, string_body s'' with
            | Some c', Some (str, rest) => Some (String c' str, rest)
            | _, _ => None
            end
        | EmptyString => None
        end
      else if (nat_of_ascii c <? 32)%nat then None
      else match string_body s' with
           | Some (str, rest) => Some (String c str, rest)
           | None => None
           end
  end.

Fixpoint digits (s : string) : string * string :=
  match s with
  | String c s' =>
      if is_digit c then let '(d, rest) := digits s' in (String c d, rest)
      else (EmptyString, s)
  | EmptyString => (EmptyString, EmptyString)
  end.

Fixpoint digits_value (d : string) (acc : Z) : Z :=
  match d with
  | String c d' => digits_value d' (10 * acc + Z.of_nat (nat_of_ascii c - 48))%Z
  | EmptyString => acc
  end.

(** An optional exponent: its lexeme (empty when there is none) and
    the rest, or [None] when an exponent mark has no digits. *)
Definition exponent (s : string) : option (string * string) :=
  match s with
  | String c s' =>
      if ((c =? "e") || (c =? "E"))%char then
        let '(sg, s2) :=
          match s' with
          | String "+"%char r => ("+", r)
          | String "-"%char r => ("-", r)
          | _ => (EmptyString, s')
          end in
        match digits s2 with
        | (EmptyString, _) => None
        | (d, rest) => Some (String c (sg ++ d), rest)
        end
      else Some (EmptyString, s)
  | EmptyString => Some (EmptyString, EmptyString)
  end.

Definition number (s : string) : option (pyval * string) :=
  let '(sign, s1) := match s with
                     | String "-"%char s' => ("-", s')
                     | _ => (EmptyString, s)
                     end in
  let '(int_part, s2) := digits s1 in
  let well_formed :=
    match int_part with
    | EmptyString => false
    | String "0"%char (String _ _) => false
    | _ => true
    end in
  if negb well_formed then None
  else
    let '(frac, s3) :=
      match s2 with
      | String "."%char s' =>
          let '(d, rest) := digits s' in (Some d, rest)
      | _ => (None, s2)
      end in
    match frac, exponent s3 with
    | Some EmptyString, _ => None
    | _, None => None
    | None, Some (EmptyString, rest) =>
        Some (PInt (if sign =? "-" then (- digits_value int_part 0)%Z
                    else digits_value int_part 0), rest)
    | None, Some (e, rest) => Some (PFloat (sign ++ int_part ++ e), rest)
    | Some d, Some (e, rest) =>
        Some (PFloat (sign ++ int_part ++ "." ++ d ++ e), rest)
    end.

Fixpoint value (fuel : nat) (s : string) : option (pyval * string) :=
  match fuel with
  | O => None
  | S fuel' =>
      let elements :=
        fix elements (n : nat) (s : string) (acc : list pyval)
          : option (list pyval * string) :=
          match n with
          | O => None
          | S n' =>
              match value fuel' s with
              | Some (v, rest) =>
                  match skip_ws rest with
                  | String ","%char rest' => elements n' rest' (acc ++ [v])%list
                  | String "]"%char rest' => Some ((acc ++ [v])%list, rest')
                  | _ => None
                  end
              | None => None
              end
          end in
      let members :=
        fix members (n : nat) (s : string) (acc : list (string * pyval))
          : option (list (string * pyval) * string) :=
          match n with
          | O => None
          | S n' =>
              match skip_ws s with
              | String c s1 =>
                  if negb (c =? quote_char)%char then None
                  else
                  match string_body s1 with
                  | Some (k, s2) =>
                      match skip_ws s2 with
                      | String ":"%char s3 =>
                          match value fuel' s3 with
                          | Some (v, rest) =>
                              match skip_ws rest with
                              | String ","%char rest' =>
                                  members n' rest' (dict_set k v acc)
                              | String "}"%char rest' =>
                                  Some (dict_set k v acc, rest')
                              | _ => None
                              end
                          | None => None
                          end
                      | _ => None
                      end
                  | None => None
                  end
              | EmptyString => None
              end
          end in
      match skip_ws s with
      | String "n"%char _ =>
          option_map (pair PNone) (expect "null" (skip_ws s))
      | String "t"%char _ =>
          option_map (pair (PBool true)) (expect "true" (skip_ws s))
      | String "f"%char _ =>
          option_map (pair (PBool false)) (expect "false" (skip_ws s))
      | String "["%char s' =>
          match skip_ws s' with
          | String "]"%char rest => Some (PList [], rest)
          | _ =>
              match elements (String.length s') s' [] with
              | Some (l, rest) => Some (PList l, rest)
              | None => None
              end
          end
      | String "{"%char s' =>
          match skip_ws s' with
          | String "}"%char rest => Some (PDict [], rest)
          | _ =>
              match members (String.length s') s' [] with
              | Some (d, rest) => Some (PDict d, rest)
              | None => None
              end
          end
      | String c s' =>
          if (c =? quote_char)%char then
            match string_body s' with
            | Some (str, rest) => Some (PStr str, rest)
            | None => None
            end
          else number (String c s')
      | EmptyString => None
      end
  end.

Definition decode (s : string) : option pyval :=
  match value (S (String.length s)) s with
  | Some (v, rest) =>
      match skip_ws rest with
      | EmptyString => Some v
      | _ => None
      end
  | None => None
  end.

(** *** Workflows *)

(** A configuration with only its name set; the other fields take the
    defaults of the model class. *)
Definition mk_config (n : string) : WorkflowNodeConfig :=
  {| name := n; description := None; function_name := None;
     service_name := None; topic_name := None; subscription_name := None;
     url := None; method := Some "GET"; headers := None; body := None;
     condition := None; delay_seconds := None; variables := None;
     call_target := None; call_args := None; switch_variable := None;
     switch_cases := None; loop_variable := None; loop_range := None;
     try_steps := None; catch_steps := None; ai_prompt := None;
     env_vars := None; memory := None; cpu := None; timeout := None |}.

Definition with_function (f : string) (hint : option string)
    (c : WorkflowNodeConfig) : WorkflowNodeConfig :=
  {| name := name c; description := description c;
     function_name := Some f;
     service_name := service_name c; topic_name := topic_name c;
     subscription_name := subscription_name c;
     url := url c; method := method c; headers := headers c;
     body := body c; condition := condition c;
     delay_seconds := delay_seconds c; variables := variables c;
     call_target := call_target c; call_args := call_args c;
     switch_variable := switch_variable c; switch_cases := switch_cases c;
     loop_variable := loop_variable c; loop_range := loop_range c;
     try_steps := try_steps c; catch_steps := catch_steps c;
     ai_prompt := hint;
     env_vars := env_vars c; memory := memory c; cpu := cpu c;
     timeout := timeout c |}.

Definition mk_node (i : string) (t : WorkflowNodeType)
    (c : WorkflowNodeConfig) : WorkflowNode :=
  {| id := i; type := t; position := {| x := "100"; y := "100" |};
     config := c; inputs := []; outputs := [];
     created_at := 0%Z; updated_at := 0%Z |}.

Definition mk_connection (i src tgt : string) : WorkflowConnection :=
  {| conn_id := i; source_node_id := src; target_node_id := tgt;
     source_handle := None; target_handle := None; conn_condition := None |}.

Definition test_metadata : WorkflowMetadata :=
  {| meta_name := "test-workflow"; meta_description := Some "Test workflow";
     version := "1.0.0"; tags := []; author := None; project_id := None;
     region := "us-central1"; meta_timeout := None;
     meta_created_at := 0%Z; meta_updated_at := 0%Z |}.

Definition mk_body (ns : list WorkflowNode) (cs : list WorkflowConnection)
  : Endpoints.WorkflowBody :=
  {| Endpoints.body_id := "test-workflow";
     Endpoints.body_metadata := test_metadata;
     Endpoints.body_nodes := ns;
     Endpoints.body_connections := cs |}.

Definition mk_workflow (ns : list WorkflowNode) (cs : list WorkflowConnection)
  : Workflow :=
  {| wf_id := "test-workflow"; metadata := test_metadata;
     nodes := ns; connections := cs |}.

Definition start_1 : WorkflowNode := mk_node "start-1" START (mk_config "Start").
Definition end_1 : WorkflowNode := mk_node "end-1" END (mk_config "End").

(** The workflow of [test_preview_workflow_yaml]: Start connected to End. *)
Definition start_end : Workflow :=
  mk_workflow [start_1; end_1] [mk_connection "conn-1" "start-1" "end-1"].

(** Cloud Function nodes: [fn_a] and [fn_b] carry a function name and a
    generation hint, [fn_bare] neither. *)
Definition fn_a : WorkflowNode :=
  mk_node "fn-a" CLOUD_FUNCTION
    (with_function "process-a" (Some "parse the payload") (mk_config "A")).
Definition fn_b : WorkflowNode :=
  mk_node "fn-b" CLOUD_FUNCTION
    (with_function "process-b" (Some "store the payload") (mk_config "B")).
Definition fn_bare : WorkflowNode :=
  mk_node "fn-1" CLOUD_FUNCTION (mk_config "Process").

(** Start connected to End, and one Cloud Function node left aside. *)
Definition one_orphan_nodes : list WorkflowNode := [start_1; fn_bare; end_1].
Definition one_orphan : Workflow :=
  mk_workflow one_orphan_nodes [mk_connection "conn-1" "start-1" "end-1"].

(** Start connected to End, and two Cloud Function nodes left aside. *)
Definition two_orphans : Workflow :=
  mk_workflow [start_1; fn_a; fn_b; end_1]
              [mk_connection "conn-1" "start-1" "end-1"].

(** Start -> A -> B -> End. *)
Definition chain : Workflow :=
  mk_workflow [start_1; fn_a; fn_b; end_1]
              [mk_connection "conn-1" "start-1" "fn-a";
               mk_connection "conn-2" "fn-a" "fn-b";
               mk_connection "conn-3" "fn-b" "end-1"].

(** *** Collaborators *)

Definition quoted (s : string) : string :=
  String quote_char EmptyString ++ s ++ String quote_char EmptyString.

(** A JSON answer that carries one suggestion. *)
Definition one_suggestion : string :=
  "{" ++ quoted "suggestions" ++ ": [" ++ quoted "Use retries" ++ "]}".

(** Unreachable for the prompts that start with [p], answers the
    others with [one_suggestion]. *)
Definition fails_on (p : string) : World -> string -> result string :=
  fun _ prompt =>
    if startswith prompt p then Raise (CollaboratorFailure "unreachable")
    else Ok one_suggestion.

(** Answers every prompt in prose. *)
Definition prose_model : World -> string -> result string :=
  fun _ _ => Ok "I would raise the memory limit.".

Definition exn_text (e : exn) : string :=
  match e with
  | ValueError m | RuntimeError m | TypeError m | CollaboratorFailure m
  | ValidationError m => m
  | KeyError k => k
  | HTTPException _ _ => "HTTPException"
  end.

Definition env (model : World -> string -> result string) : Env :=
  {| settings := {| GOOGLE_CLOUD_PROJECT := Some "demo-project";
                    GEMINI_API_KEY := Some "key";
                    GEMINI_MODEL := "gemini-pro" |};
     json_loads := decode;
     yaml_dump := fun _ => EmptyString;
     model_generate_content := model;
     str_exn := exn_text;
     slug := fun s => s;
     _build_workflow_prompt := fun w => "workflow " ++ wf_id w;
     _build_function_prompt := fun n => "function " ++ id n;
     _build_dockerfile_prompt := fun n => "dockerfile " ++ id n;
     _build_enhancement_prompt := fun n => "enhance " ++ id n;
     _generate_basic_function_code := fun _ => "# function";
     _generate_basic_service_code := fun _ => "# service";
     _generate_basic_dockerfile := fun _ => "FROM python:3.11-slim";
     _generate_function_requirements := "functions-framework>=3.4.0";
     _generate_service_requirements := "Flask>=2.3.0";
     _generate_cloudbuild_config := fun _ => "steps:";
     _generate_terraform_config := fun _ => "terraform {}";
     _generate_deployment_script := fun _ => "#!/bin/bash";
     total_seconds := "0.0" |}.

(** The same environment without an API key: no model is created. *)
Definition offline_env : Env :=
  {| settings := {| GOOGLE_CLOUD_PROJECT := Some "demo-project";
                    GEMINI_API_KEY := None;
                    GEMINI_MODEL := "gemini-pro" |};
     json_loads := decode;
     yaml_dump := yaml_dump (env prose_model);
     model_generate_content := prose_model;
     str_exn := exn_text;
     slug := slug (env prose_model);
     _build_workflow_prompt := _build_workflow_prompt (env prose_model);
     _build_function_prompt := _build_function_prompt (env prose_model);
     _build_dockerfile_prompt := _build_dockerfile_prompt (env prose_model);
     _build_enhancement_prompt := _build_enhancement_prompt (env prose_model);
     _generate_basic_function_code :=
       _generate_basic_function_code (env prose_model);
     _generate_basic_service_code :=
       _generate_basic_service_code (env prose_model);
     _generate_basic_dockerfile := _generate_basic_dockerfile (env prose_model);
     _generate_function_requirements :=
       _generate_function_requirements (env prose_model);
     _generate_service_requirements :=
       _generate_service_requirements (env prose_model);
     _generate_cloudbuild_config :=
       _generate_cloudbuild_config (env prose_model);
     _generate_terraform_config := _generate_terraform_config (env prose_model);
     _generate_deployment_script :=
       _generate_deployment_script (env prose_model);
     total_seconds := total_seconds (env prose_model) |}.

(** A generation request, without enrichment, for [one_orphan]. *)
Definition one_orphan_request : Endpoints.GenerationRequestBody :=
  {| Endpoints.body_workflow :=
       mk_body one_orphan_nodes [mk_connection "conn-1" "start-1" "end-1"];
     Endpoints.body_target_format := "yaml";
     Endpoints.body_include_deployment := true;
     Endpoints.body_ai_enhance := false |}.

(** A generation request, with enrichment, for [chain]. *)
Definition chain_request : WorkflowGenerationRequest :=
  {| workflow := chain; target_format := "yaml";
     include_deployment := false; ai_enhance := true |}.

End Sample.

(* ================================================================== *)
(** ** Vocabulary of the properties *)
(* ================================================================== *)

Module Spec.

Import WorkflowService.

(** A node that is neither Start nor End and whose id is neither the
    source nor the target of a connection of the workflow. *)
Definition orphaned (workflow : Workflow) (node : WorkflowNode) : bool :=
  is_inner node
  && (negb (mem (id node) (map target_node_id (connections workflow)))
      && negb (mem (id node) (map source_node_id (connections workflow)))).

(** The issues about connectivity among a list of issues: the
    validator words them, and only them, as [Node '...' ...]. *)
Definition is_connectivity_issue (issue : string) : bool :=
  startswith issue "Node '".

Definition connectivity_issues (issues : list string) : list string :=
  filter is_connectivity_issue issues.

(** The issues about the number of Start and End nodes. *)
Definition cardinality_issues (workflow : Workflow) : list string :=
  ((if negb (List.length (nodes_of_type START (nodes workflow)) =? 1)%nat
    then [start_issue] else [])
   ++ (if (List.length (nodes_of_type END (nodes workflow)) =? 0)%nat
       then [end_issue] else []))%list.

(** The shape the constructor of [Workflow] asks of a node list. *)
Definition well_shaped (ns : list WorkflowNode) : Prop :=
  ns <> []
  /\ List.length (nodes_of_type START ns) = 1
  /\ 1 <= List.length (nodes_of_type END ns).

(** The key of a step of the step list, a dictionary with one entry. *)
Definition step_key (step : pyval) : option string :=
  match step with
  | PDict [(key, _)] => Some key
  | _ => None
  end.

Definition non_start (node : WorkflowNode) : bool :=
  negb (type_eqb (type node) START).

(** The step the compiler emits for a node that is not a Start node,
    at position [i] of the node sequence. *)
Definition step_of (env : Env) (i_node : nat * WorkflowNode) : pyval :=
  let '(i, node) := i_node in
  if type_eqb (type node) END
  then PDict [("end_step_" ++ fmt_nat i, PDict [("return", PStr "${result}")])]
  else PDict [("step_" ++ fmt_nat i, _node_to_workflow_step env node)].

(** The entries of [enumerate] for which the compiler emits a step. *)
Definition emits (i_node : nat * WorkflowNode) : bool :=
  non_start (snd i_node).

(** [sub] occurs in [s] at index [i] and at no lower index. *)
Definition first_at (sub s : string) (i : nat) : Prop :=
  i <= String.length s
  /\ startswith (skip i s) sub = true
  /\ forall j, j < i -> startswith (skip j s) sub = false.

(** [response] holds a block that [marker] opens, at the first place
    where [marker] occurs, and that the first fence after the marker
    closes, with [interior] between the two. *)
Definition has_block (response marker interior : string) : Prop :=
  exists pre post,
    response = pre ++ marker ++ interior ++ AIService.fence ++ post
    /\ first_at marker response (String.length pre)
    /\ first_at AIService.fence (interior ++ AIService.fence ++ post)
                (String.length interior).

(** The table of required fields: the label of the field a node type
    asks for and the value the node gives it; [None] for the types
    that ask for none. *)
Definition required_field (node : WorkflowNode)
  : option (string * option string) :=
  let cfg := config node in
  match type node with
  | CLOUD_FUNCTION => Some ("function_name", function_name cfg)
  | CLOUD_RUN => Some ("service_name", service_name cfg)
  | PUBSUB_PUBLISH => Some ("topic_name", topic_name cfg)
  | PUBSUB_SUBSCRIBE => Some ("subscription_name", subscription_name cfg)
  | HTTP_REQUEST => Some ("url", url cfg)
  | CONDITION => Some ("condition", condition cfg)
  | _ => None
  end.

(** The required field, if any, holds a string that is not empty. *)
Definition field_present (node : WorkflowNode) : bool :=
  match required_field node with
  | Some (_, v) => truthy_str v
  | None => true
  end.

(** [issue] quotes the display name of [node]. *)
Definition quotes_name (issue : string) (node : WorkflowNode) : Prop :=
  exists before after,
    issue = before ++ "'" ++ name (config node) ++ "'" ++ after.

(** What the validator and the compiler read of a node. *)
Definition core (node : WorkflowNode)
  : string * WorkflowNodeType * WorkflowNodeConfig :=
  (id node, type node, config node).

Definition with_nodes (workflow : Workflow) (ns : list WorkflowNode)
  : Workflow :=
  {| wf_id := wf_id workflow; metadata := metadata workflow;
     nodes := ns; connections := connections workflow |}.

Definition add_connection (workflow : Workflow) (c : WorkflowConnection)
  : Workflow :=
  {| wf_id := wf_id workflow; metadata := metadata workflow;
     nodes := nodes workflow;
     connections := (connections workflow ++ [c])%list |}.

(** The keys of a dictionary. *)
Definition keys {V} (d : list (string * V)) : list string := map fst d.

(** A text without white space at either end. *)
Definition trimmed (s : string) : Prop := strip s = s.

(** The folder of the files of a Cloud Function node, respectively of a
    Cloud Run node. *)
Definition function_folder (env : Env) (node : WorkflowNode) : string :=
  "functions/"
  ++ (if truthy_str (function_name (config node))
      then fmt_opt (function_name (config node))
      else slug env (name (config node))).

Definition service_folder (env : Env) (node : WorkflowNode) : string :=
  "services/"
  ++ (if truthy_str (service_name (config node))
      then fmt_opt (service_name (config node))
      else slug env (name (config node))).

(** The paths of the files the orchestrator writes for a node, in the
    order in which it writes them. *)
Definition node_file_keys (env : Env) (node : WorkflowNode) : list string :=
  match type node with
  | CLOUD_FUNCTION =>
      [function_folder env node ++ "/main.py";
       function_folder env node ++ "/requirements.txt"]
  | CLOUD_RUN =>
      [service_folder env node ++ "/Dockerfile";
       service_folder env node ++ "/main.py";
       service_folder env node ++ "/requirements.txt"]
  | _ => []
  end.

(** No string occurs twice in the list. *)
Fixpoint distinctb (l : list string) : bool :=
  match l with
  | [] => true
  | x :: l' => negb (WorkflowService.mem x l') && distinctb l'
  end.

(** A node for which the orchestrator produces files. *)
Definition has_files (node : WorkflowNode) : bool :=
  type_eqb (type node) CLOUD_FUNCTION || type_eqb (type node) CLOUD_RUN.

(** The exception of a collaborator call when no model was created. *)
Definition not_configured : exn := RuntimeError "Gemini API not configured".

(** [log] is [sent] followed by at most [n] more prompts. *)
Definition grows_by_at_most (sent log : World) (n : nat) : Prop :=
  exists more, log = (sent ++ more)%list /\ List.length more <= n.

(** A node that carries a generation hint. *)
Definition hinted (node : WorkflowNode) : bool :=
  truthy_str (ai_prompt (config node)).

End Spec.
Import Spec.

(* ================================================================== *)
(** ** Properties of the validator *)
(* ================================================================== *)

Section Validator.

Import WorkflowService.

Lemma fold_orphan_step (workflow : Workflow) (ns : list WorkflowNode)
    (issues : list string) :
  fold_left (orphan_step (map source_node_id (connections workflow))
                         (map target_node_id (connections workflow)))
            ns issues
  = (issues ++ map not_connected_issue (filter (orphaned workflow) ns))%list.
Proof.
  revert issues.
  induction ns as [|node ns IH]; intros issues; cbn [fold_left filter map].
  - now rewrite app_nil_r.
  - rewrite IH. unfold orphan_step, orphaned.
    destruct (is_inner node); cbn [andb].
    + destruct (negb _ && negb _); cbn [map].
      * now rewrite <- app_assoc.
      * reflexivity.
    + reflexivity.
Qed.

Lemma fold_config_step (ns : list WorkflowNode) (issues : list string) :
  fold_left config_step ns issues
  = (issues ++ flat_map _validate_node_config ns)%list.
Proof.
  revert issues.
  induction ns as [|node ns IH]; intros issues; cbn [fold_left flat_map].
  - now rewrite app_nil_r.
  - rewrite IH. unfold config_step. now rewrite app_assoc.
Qed.

(** The issue list in closed form: cardinality issues, then one issue
    per orphaned node, then the configuration issues, each group in
    node order. *)
Lemma validate_workflow_eq (workflow : Workflow) :
  validate_workflow workflow
  = (cardinality_issues workflow
     ++ map not_connected_issue (filter (orphaned workflow) (nodes workflow))
     ++ flat_map _validate_node_config (nodes workflow))%list.
Proof.
  unfold validate_workflow, cardinality_issues.
  rewrite fold_config_step, fold_orphan_step.
  destruct (negb _); destruct (_ =? 0)%nat; cbn [app];
    now rewrite <- ?app_assoc.
Qed.

Lemma not_connected_is_connectivity (node : WorkflowNode) :
  is_connectivity_issue (not_connected_issue node) = true.
Proof. reflexivity. Qed.

Lemma config_issue_shape (node : WorkflowNode) (issue : string) :
  In issue (_validate_node_config node) ->
  is_connectivity_issue issue = false
  /\ issue <> start_issue /\ issue <> end_issue.
Proof.
  unfold _validate_node_config.
  destruct (type node); try destruct (negb _); cbn [In]; intros H;
    try contradiction;
    destruct H as [<- | []]; repeat split; try reflexivity; discriminate.
Qed.

Lemma connectivity_of_not_connected (ns : list WorkflowNode) :
  connectivity_issues (map not_connected_issue ns)
  = map not_connected_issue ns.
Proof.
  unfold connectivity_issues.
  induction ns as [|node ns IH]; cbn [map filter].
  - reflexivity.
  - rewrite not_connected_is_connectivity. now rewrite IH.
Qed.

Lemma connectivity_of_config (ns : list WorkflowNode) :
  connectivity_issues (flat_map _validate_node_config ns) = [].
Proof.
  unfold connectivity_issues.
  induction ns as [|node ns IH]; cbn [flat_map].
  - reflexivity.
  - rewrite filter_app, IH, app_nil_r.
    assert (H : forall issue, In issue (_validate_node_config node) ->
                              is_connectivity_issue issue = false)
      by (intros issue Hin; now apply (config_issue_shape node)).
    induction (_validate_node_config node) as [|issue l IHl]; cbn [filter].
    + reflexivity.
    + rewrite (H issue (or_introl eq_refl)).
      apply IHl. intros i Hi. apply H. now right.
Qed.

Lemma connectivity_of_cardinality (workflow : Workflow) :
  connectivity_issues (cardinality_issues workflow) = [].
Proof.
  unfold cardinality_issues.
  destruct (negb _); destruct (_ =? 0)%nat; reflexivity.
Qed.

(** The connectivity issues of a validation are exactly the issues of
    the orphaned nodes, one each, in node order. *)
Lemma connectivity_issues_validate (workflow : Workflow) :
  connectivity_issues (validate_workflow workflow)
  = map not_connected_issue (filter (orphaned workflow) (nodes workflow)).
Proof.
  rewrite validate_workflow_eq. unfold connectivity_issues.
  rewrite !filter_app.
  fold (connectivity_issues (cardinality_issues workflow)).
  fold (connectivity_issues
          (map not_connected_issue
               (filter (orphaned workflow) (nodes workflow)))).
  fold (connectivity_issues (flat_map _validate_node_config (nodes workflow))).
  rewrite connectivity_of_cardinality, connectivity_of_not_connected,
    connectivity_of_config.
  now rewrite app_nil_r.
Qed.

End Validator.

Section ValidatorClaims.

Import WorkflowService.

Lemma validate_nodes_ok (ns v : list WorkflowNode) :
  validate_nodes ns = Ok v -> v = ns /\ well_shaped ns.
Proof.
  unfold validate_nodes, well_shaped.
  destruct ns as [|node ns]; [discriminate|].
  destruct (List.length (nodes_of_type START (node :: ns)) =? 1)%nat eqn:Hs;
    cbn [negb]; [|discriminate].
  destruct (List.length (nodes_of_type END (node :: ns)) <? 1)%nat eqn:He;
    [discriminate|].
  intros [= <-].
  apply Nat.eqb_eq in Hs. apply Nat.ltb_ge in He.
  repeat split; try assumption. discriminate.
Qed.

Lemma validate_nodes_rejects (ns : list WorkflowNode) :
  ~ well_shaped ns -> exists msg, validate_nodes ns = Raise (ValueError msg).
Proof.
  unfold validate_nodes, well_shaped. intros Hshape.
  destruct ns as [|node ns]; [eauto|].
  destruct (List.length (nodes_of_type START (node :: ns)) =? 1)%nat eqn:Hs;
    cbn [negb]; [|eauto].
  destruct (List.length (nodes_of_type END (node :: ns)) <? 1)%nat eqn:He;
    [eauto|].
  apply Nat.eqb_eq in Hs. apply Nat.ltb_ge in He.
  exfalso. apply Hshape. repeat split; try assumption. discriminate.
Qed.

Lemma well_shaped_no_cardinality_issue (workflow : Workflow) :
  well_shaped (nodes workflow) -> cardinality_issues workflow = [].
Proof.
  intros (_ & Hs & He). unfold cardinality_issues.
  rewrite Hs. cbn [Nat.eqb negb app].
  destruct (List.length (nodes_of_type END (nodes workflow))); [lia|].
  reflexivity.
Qed.

(** An issue about a node is never one of the two cardinality issues. *)
Lemma node_issue_not_cardinality (workflow : Workflow) (issue : string) :
  In issue
     (map not_connected_issue (filter (orphaned workflow) (nodes workflow))
      ++ flat_map _validate_node_config (nodes workflow))%list ->
  issue <> start_issue /\ issue <> end_issue.
Proof.
  rewrite in_app_iff, in_map_iff, in_flat_map.
  intros [(node & <- & _) | (node & _ & Hin)].
  - split; discriminate.
  - now apply (config_issue_shape node).
Qed.

(** C5.  On a workflow value without nodes the validator returns the
    missing-Start and the missing-End issue, and the handler of the
    validate endpoint would report [is_valid = false] for it; but the
    endpoint never hands such a value to its handler: constructing
    the [Workflow] from a body without nodes raises, and the request
    is answered with 422 instead of the report that
    [test_validate_workflow_missing_nodes] expects. *)
Theorem zero_nodes_validate_endpoint
    (env : Env) (i : string) (m : WorkflowMetadata)
    (cs : list WorkflowConnection) (sent : World) :
  let workflow :=
    {| wf_id := i; metadata := m; nodes := []; connections := cs |} in
  let body :=
    {| Endpoints.body_id := i; Endpoints.body_metadata := m;
       Endpoints.body_nodes := []; Endpoints.body_connections := cs |} in
  validate_workflow workflow = [start_issue; end_issue]
  /\ (exists report,
        Endpoints.validate_workflow env workflow sent = (Ok report, sent)
        /\ Endpoints.is_valid report = false)
  /\ Endpoints.post_validate env body sent
     = (Endpoints.ErrorResponse 422
          (PList [PStr (str_exn env
                          (ValidationError
                             "Workflow must have at least one node"))]),
        sent).
Proof.
  cbn zeta. repeat split.
  eexists. split; reflexivity.
Qed.

(** C9, as amended.  A Cloud Function node whose id is neither source
    nor target of a connection contributes exactly one connectivity
    issue, which names the node's display name; it stands between the
    issues of the orphaned nodes before it and those of the orphaned
    nodes after it, so it is the only connectivity issue when no other
    node is orphaned. *)
Theorem orphan_node_one_connectivity_issue
    (workflow : Workflow) (pre post : list WorkflowNode)
    (node : WorkflowNode) :
  nodes workflow = (pre ++ node :: post)%list ->
  type node = CLOUD_FUNCTION ->
  mem (id node) (map source_node_id (connections workflow)) = false ->
  mem (id node) (map target_node_id (connections workflow)) = false ->
  connectivity_issues (validate_workflow workflow)
  = List.app
      (map not_connected_issue (filter (orphaned workflow) pre))
      (("Node '" ++ name (config node) ++ "' is not connected")
       :: map not_connected_issue (filter (orphaned workflow) post)).
Proof.
  intros Hnodes Htype Hsrc Htgt.
  rewrite connectivity_issues_validate, Hnodes.
  rewrite filter_app. cbn [filter].
  assert (Horphan : orphaned workflow node = true).
  { unfold orphaned, is_inner. now rewrite Htype, Hsrc, Htgt. }
  rewrite Horphan, map_app. reflexivity.
Qed.

Lemma orphan_node_one_connectivity_issue_witness :
  nodes Sample.one_orphan = ([Sample.start_1] ++ Sample.fn_bare :: [Sample.end_1])%list
  /\ connectivity_issues (validate_workflow Sample.one_orphan)
     = ["Node 'Process' is not connected"].
Proof.
  split; [reflexivity|].
  exact (orphan_node_one_connectivity_issue
           Sample.one_orphan [Sample.start_1] [Sample.end_1] Sample.fn_bare
           eq_refl eq_refl eq_refl eq_refl).
Defined.

(** C9, as stated, fails on a workflow with two such nodes: the
    validation has two connectivity issues, not one. *)
Lemma two_orphans_two_connectivity_issues :
  In Sample.fn_a (nodes Sample.two_orphans)
  /\ type Sample.fn_a = CLOUD_FUNCTION
  /\ mem (id Sample.fn_a)
         (map source_node_id (connections Sample.two_orphans)) = false
  /\ mem (id Sample.fn_a)
         (map target_node_id (connections Sample.two_orphans)) = false
  /\ connectivity_issues (validate_workflow Sample.two_orphans)
     = ["Node 'A' is not connected"; "Node 'B' is not connected"]
  /\ List.length (connectivity_issues (validate_workflow Sample.two_orphans))
     <> 1.
Proof.
  repeat split; try reflexivity.
  - right. left. reflexivity.
  - discriminate.
Qed.

(** C10.  A [Workflow] that was constructed has the node list it was
    given, which is not empty and holds exactly one Start node and at
    least one End node; the validator reports neither cardinality
    issue for it; and a node list of any other shape makes the
    construction raise. *)
Theorem constructed_workflow_well_shaped
    (i : string) (m : WorkflowMetadata) (ns : list WorkflowNode)
    (cs : list WorkflowConnection) (workflow : Workflow) :
  Workflow_init i m ns cs = Ok workflow ->
  nodes workflow = ns
  /\ well_shaped (nodes workflow)
  /\ ~ In start_issue (validate_workflow workflow)
  /\ ~ In end_issue (validate_workflow workflow)
  /\ (forall ns', ~ well_shaped ns' ->
        exists msg, Workflow_init i m ns' cs = Raise (ValidationError msg)).
Proof.
  unfold Workflow_init. intros Hinit.
  destruct (validate_nodes ns) as [v|e] eqn:Hv; [|now destruct e].
  injection Hinit as <-. cbn [nodes].
  destruct (validate_nodes_ok ns v Hv) as [-> Hshape].
  split; [reflexivity|]. split; [assumption|].
  set (w := {| wf_id := i; metadata := m; nodes := ns; connections := cs |}).
  assert (Hnode : forall issue, In issue (validate_workflow w) ->
                                issue <> start_issue /\ issue <> end_issue).
  { intros issue. rewrite validate_workflow_eq.
    rewrite (well_shaped_no_cardinality_issue w Hshape). cbn [app].
    apply node_issue_not_cardinality. }
  split; [intros Hin; destruct (Hnode _ Hin) as [H _]; now apply H|].
  split; [intros Hin; destruct (Hnode _ Hin) as [_ H]; now apply H|].
  intros ns' Hbad.
  destruct (validate_nodes_rejects ns' Hbad) as [msg Hmsg].
  exists msg. now rewrite Hmsg.
Qed.

Lemma constructed_workflow_well_shaped_witness :
  Workflow_init "test-workflow" Sample.test_metadata
                (nodes Sample.start_end) (connections Sample.start_end)
  = Ok Sample.start_end
  /\ well_shaped (nodes Sample.start_end)
  /\ ~ In start_issue (validate_workflow Sample.start_end)
  /\ ~ In end_issue (validate_workflow Sample.start_end).
Proof.
  split; [reflexivity|].
  destruct (constructed_workflow_well_shaped
              "test-workflow" Sample.test_metadata
              (nodes Sample.start_end) (connections Sample.start_end)
              Sample.start_end eq_refl)
    as (_ & Hshape & Hstart & Hend & _).
  exact (conj Hshape (conj Hstart Hend)).
Defined.

End ValidatorClaims.

(* ================================================================== *)
(** ** Properties of the step compiler *)
(* ================================================================== *)

Section Compiler.

Import WorkflowService.

Context (env : Env).

Lemma compile_step_eq (steps : list pyval) (i_node : nat * WorkflowNode) :
  compile_step env steps i_node
  = (steps ++ if emits i_node then [step_of env i_node] else [])%list.
Proof.
  destruct i_node as [i node]. unfold compile_step, emits, step_of, non_start.
  cbn [snd]. destruct (type node); cbn; now rewrite ?app_nil_r.
Qed.

Lemma fold_compile_step (l : list (nat * WorkflowNode)) (steps : list pyval) :
  fold_left (compile_step env) l steps
  = (steps ++ map (step_of env) (filter emits l))%list.
Proof.
  revert steps.
  induction l as [|i_node l IH]; intros steps; cbn [fold_left filter map].
  - now rewrite app_nil_r.
  - rewrite IH, compile_step_eq.
    destruct (emits i_node); cbn [map]; now rewrite <- app_assoc.
Qed.

(** Positions and nodes of [enumerate] from a starting index on. *)
Lemma filter_combine_seq (ns : list WorkflowNode) (k : nat) :
  map snd (filter emits (combine (seq k (List.length ns)) ns))
  = filter non_start ns.
Proof.
  revert k.
  induction ns as [|node ns IH]; intros k; cbn [List.length seq combine filter].
  - reflexivity.
  - unfold emits at 1. cbn [snd].
    destruct (non_start node); cbn [map]; now rewrite IH.
Qed.


Lemma workflow_steps_eq (workflow : Workflow) :
  workflow_steps env workflow
  = map (step_of env) (filter emits (enumerate (nodes workflow))).
Proof. unfold workflow_steps. now rewrite fold_compile_step. Qed.

(** C7.  The step list is the list of the steps of the nodes that are
    not Start nodes, in node order: a return step referencing
    [${result}] for an End node, the step of
    [_node_to_workflow_step] for any other node; so it has as many
    entries as the workflow has nodes that are not Start nodes, and
    this list is what the compiler serializes. *)
Theorem one_step_per_non_start_node (workflow : Workflow) :
  workflow_steps env workflow
  = map (fun i_node : nat * WorkflowNode =>
           let (i, node) := i_node in
           if type_eqb (type node) END
           then PDict [("end_step_" ++ fmt_nat i,
                        PDict [("return", PStr "${result}")])]
           else PDict [("step_" ++ fmt_nat i,
                        _node_to_workflow_step env node)])
        (filter (fun i_node => non_start (snd i_node))
                (enumerate (nodes workflow)))
  /\ map snd (filter (fun i_node => non_start (snd i_node))
                     (enumerate (nodes workflow)))
     = filter non_start (nodes workflow)
  /\ List.length (workflow_steps env workflow)
     = List.length (filter non_start (nodes workflow))
  /\ _generate_basic_workflow_yaml env workflow
     = yaml_dump env
         (PDict [("main",
                  PDict [("steps", PList (workflow_steps env workflow))])]).
Proof.
  split; [apply workflow_steps_eq|].
  split; [apply filter_combine_seq|].
  split; [|reflexivity].
  rewrite workflow_steps_eq, length_map.
  rewrite <- (filter_combine_seq (nodes workflow) 0).
  now rewrite length_map.
Qed.


End Compiler.



(* ================================================================== *)
(** ** The validator and the compiler as methods *)
(* ================================================================== *)

Section Methods.

Import WorkflowService.

Lemma bind_ok {S A B} (m : M S A) (k : A -> M S B) (s s' : S) (a : A) :
  m s = (Ok a, s') -> bind m k s = k a s'.
Proof. intros H. unfold bind. now rewrite H. Qed.

Lemma bind_raise {S A B} (m : M S A) (k : A -> M S B) (s s' : S) (e : exn) :
  m s = (Raise e, s') -> bind m k s = (Raise e, s').
Proof. intros H. unfold bind. now rewrite H. Qed.

(** A loop whose body only updates the local list is a fold on that
    list and leaves the object alone. *)
Lemma for_each_fold {O X A} (step : list X -> A -> list X)
    (body : A -> M (O * list X) unit) (o : O) :
  (forall x l, body x (o, l) = (Ok tt, (o, step l x))) ->
  forall xs l, for_each xs body (o, l) = (Ok tt, (o, fold_left step xs l)).
Proof.
  intros Hbody xs.
  induction xs as [|x xs IH]; intros l; cbn [for_each fold_left].
  - reflexivity.
  - rewrite (bind_ok _ _ _ _ _ (Hbody x l)). apply IH.
Qed.

Lemma if_append {O X} (b : bool) (x : X) (o : O) (l : list X) :
  (if b then append x else ret tt) (o, l)
  = (Ok tt, (o, if b then (l ++ [x])%list else l)).
Proof. destruct b; reflexivity. Qed.

Lemma validate_workflow_method_eq (workflow : Workflow) (l : list string) :
  validate_workflow_method (workflow, l)
  = (Ok (validate_workflow workflow),
     (workflow, validate_workflow workflow)).
Proof.
  unfold validate_workflow_method, validate_workflow.
  set (sources := map source_node_id (connections workflow)).
  set (targets := map target_node_id (connections workflow)).
  erewrite bind_ok by reflexivity.
  erewrite bind_ok by reflexivity. cbn [fst].
  erewrite bind_ok by apply if_append.
  erewrite bind_ok by apply if_append.
  erewrite bind_ok.
  2:{ apply (for_each_fold (orphan_step sources targets)).
      intros node l'. unfold orphan_step.
      destruct (is_inner node); [|reflexivity].
      destruct (negb _ && negb _); reflexivity. }
  erewrite bind_ok.
  2:{ apply (for_each_fold config_step). reflexivity. }
  reflexivity.
Qed.

Lemma compile_method_eq (env : Env) (workflow : Workflow) (l : list pyval) :
  _generate_basic_workflow_yaml_method env (workflow, l)
  = (Ok (_generate_basic_workflow_yaml env workflow),
     (workflow, workflow_steps env workflow)).
Proof.
  unfold _generate_basic_workflow_yaml_method, _generate_basic_workflow_yaml,
    workflow_def, workflow_steps.
  erewrite bind_ok by reflexivity.
  erewrite bind_ok by reflexivity. cbn [fst].
  erewrite bind_ok.
  2:{ apply (for_each_fold (compile_step env)).
      intros [i node] l'. unfold compile_step.
      destruct (type node); reflexivity. }
  reflexivity.
Qed.

(** C8.  Called on a workflow object, whatever its local list held
    before, the validator returns its issue list and leaves the object
    as it was; called again on the object as the first call left it,
    it returns the same list.  The same holds of the compiler and its
    step-document. *)
Theorem validate_and_compile_twice
    (env : Env) (workflow : Workflow)
    (issues0 : list string) (steps0 : list pyval) :
  (exists issues st1 st2,
      validate_workflow_method (workflow, issues0) = (Ok issues, st1)
      /\ validate_workflow_method st1 = (Ok issues, st2)
      /\ issues = validate_workflow workflow
      /\ fst st1 = workflow /\ fst st2 = workflow)
  /\ (exists document st1 st2,
        _generate_basic_workflow_yaml_method env (workflow, steps0)
        = (Ok document, st1)
        /\ _generate_basic_workflow_yaml_method env st1 = (Ok document, st2)
        /\ document = _generate_basic_workflow_yaml env workflow
        /\ fst st1 = workflow /\ fst st2 = workflow).
Proof.
  split.
  - exists (validate_workflow workflow),
           (workflow, validate_workflow workflow),
           (workflow, validate_workflow workflow).
    rewrite !validate_workflow_method_eq. repeat split.
  - exists (_generate_basic_workflow_yaml env workflow),
           (workflow, workflow_steps env workflow),
           (workflow, workflow_steps env workflow).
    rewrite !compile_method_eq. repeat split.
Qed.

End Methods.

(* ================================================================== *)
(** ** Properties of the collaborator-facing services *)
(* ================================================================== *)

Section Services.

Import WorkflowService.

Context (env : Env).

Lemma for_each_app {S A} (xs ys : list A) (body : A -> M S unit) (s : S) :
  for_each (xs ++ ys)%list body s
  = bind (for_each xs body) (fun _ => for_each ys body) s.
Proof.
  revert s. induction xs as [|x xs IH]; intros s; cbn [app for_each].
  - reflexivity.
  - unfold bind. destruct (body x s) as [[[]|e] s'].
    + rewrite IH. reflexivity.
    + reflexivity.
Qed.

(** What the enhancement of one node does when the collaborator is
    configured: the prompt is sent, and the answer, if any, goes
    through [_extract_json_from_response]. *)
Lemma enhance_node_configuration_eq (node : WorkflowNode) (sent : World) :
  AIService.has_model env = true ->
  AIService.enhance_node_configuration env node sent
  = (match model_generate_content env sent
             (_build_enhancement_prompt env node) with
     | Ok response => Ok (AIService._extract_json_from_response env response)
     | Raise e => Raise e
     end,
     (sent ++ [_build_enhancement_prompt env node])%list).
Proof.
  intros Hmodel.
  unfold AIService.enhance_node_configuration, AIService.reraise, try_except,
    bind, AIService._generate_content.
  rewrite Hmodel. cbn [negb].
  destruct (model_generate_content env sent _); reflexivity.
Qed.

(** C6, as amended.  When the collaborator answers the enhancement
    prompt of a node with a text from which no JSON document can be
    read, the enhancement does not fail: it returns the dictionary
    with the single key [raw_response] bound to the text that was
    handed to the JSON decoder. *)
Theorem unparsable_answer_is_wrapped
    (node : WorkflowNode) (sent : World) (response : string) :
  AIService.has_model env = true ->
  model_generate_content env sent (_build_enhancement_prompt env node)
  = Ok response ->
  json_loads env (AIService.json_str_of response) = None ->
  AIService._extract_json_from_response env response
  = PDict [("raw_response", PStr (AIService.json_str_of response))]
  /\ AIService.enhance_node_configuration env node sent
     = (Ok (PDict [("raw_response", PStr (AIService.json_str_of response))]),
        (sent ++ [_build_enhancement_prompt env node])%list).
Proof.
  intros Hmodel Hanswer Hjson.
  assert (Hextract :
            AIService._extract_json_from_response env response
            = PDict [("raw_response", PStr (AIService.json_str_of response))])
    by (unfold AIService._extract_json_from_response; now rewrite Hjson).
  split; [exact Hextract|].
  rewrite enhance_node_configuration_eq by exact Hmodel.
  now rewrite Hanswer, Hextract.
Qed.

(** A failure of the enhancement of a hinted node is a failure of the
    iteration of the suggestion loop on it, with the list untouched. *)
Lemma suggestion_step_raise (node : WorkflowNode) (sent sent' : World)
    (collected : list pyval) (e : exn) :
  truthy_str (ai_prompt (config node)) = true ->
  AIService.enhance_node_configuration env node sent = (Raise e, sent') ->
  suggestion_step env node (sent, collected) = (Raise e, (sent', collected)).
Proof.
  intros Hhint Hfail. unfold suggestion_step. rewrite Hhint.
  apply bind_raise. unfold on_world. cbn [fst snd]. now rewrite Hfail.
Qed.

Lemma suggestions_stop_at_failure
    (workflow : Workflow) (pre post : list WorkflowNode) (node : WorkflowNode)
    (sent sent1 sent2 : World) (collected : list pyval) (e : exn) :
  nodes workflow = (pre ++ node :: post)%list ->
  collect_suggestions env pre (sent, []) = (Ok tt, (sent1, collected)) ->
  truthy_str (ai_prompt (config node)) = true ->
  AIService.enhance_node_configuration env node sent1 = (Raise e, sent2) ->
  _generate_ai_suggestions env workflow sent
  = (Ok (firstn 10 collected), sent2).
Proof.
  intros Hnodes Hpre Hhint Hfail.
  unfold _generate_ai_suggestions, try_except, suggestions_body.
  assert (Hloop : collect_suggestions env (nodes workflow) (sent, [])
                  = (Raise e, (sent2, collected))).
  { rewrite Hnodes. unfold collect_suggestions in *.
    rewrite for_each_app.
    rewrite (bind_ok _ _ _ _ _ Hpre). cbn [for_each].
    apply bind_raise. now apply suggestion_step_raise. }
  rewrite (bind_raise _ _ _ _ _ Hloop). reflexivity.
Qed.

(** C2, as amended.  In an enrichment-enabled request whose
    step-document and node files were produced, a collaborator failure
    on the enhancement of a hinted node does not abort the request:
    the response is returned.  Its suggestions are those collected
    from the nodes before the failing one, at most 10 (they are
    strings, as the response asks); the collaborator has received
    nothing after the failing prompt, and the general suggestions are
    not appended. *)
Theorem suggestion_failure_ends_collection
    (request : WorkflowGenerationRequest)
    (pre post : list WorkflowNode) (node : WorkflowNode)
    (sent0 sent_yaml sent_files sent1 sent2 : World)
    (workflow_yaml : string) (files : list (string * string))
    (collected : list pyval) (suggestions : list string) (e : exn) :
  ai_enhance request = true ->
  nodes (workflow request) = (pre ++ node :: post)%list ->
  AIService.generate_workflow_yaml env (workflow request) sent0
  = (Ok workflow_yaml, sent_yaml) ->
  generate_node_files env (nodes (workflow request)) true
    (dict_set "workflow.yaml" workflow_yaml []) sent_yaml
  = (Ok files, sent_files) ->
  collect_suggestions env pre (sent_files, [])
  = (Ok tt, (sent1, collected)) ->
  strs_of (firstn 10 collected) = Some suggestions ->
  truthy_str (ai_prompt (config node)) = true ->
  AIService.enhance_node_configuration env node sent1 = (Raise e, sent2) ->
  _generate_ai_suggestions env (workflow request) sent_files
  = (Ok (firstn 10 collected), sent2)
  /\ generate_workflow_code env request sent0
     = (Ok {| workflow_id := wf_id (workflow request);
              generated_files := files;
              deployment_configs :=
                Some (if include_deployment request
                      then _generate_deployment_configs env (workflow request)
                      else []);
              ai_suggestions := Some suggestions;
              generation_time := total_seconds env |},
        sent2).
Proof.
  intros Henrich Hnodes Hyaml Hfiles Hpre Hstrs Hhint Hfail.
  assert (Hsugg : _generate_ai_suggestions env (workflow request) sent_files
                  = (Ok (firstn 10 collected), sent2))
    by exact (suggestions_stop_at_failure _ _ _ _ _ _ _ _ _
                Hnodes Hpre Hhint Hfail).
  split; [exact Hsugg|].
  unfold generate_workflow_code, AIService.reraise, try_except.
  rewrite Henrich.
  rewrite (bind_ok _ _ _ _ _ Hyaml).
  rewrite (bind_ok _ _ _ _ _ Hfiles).
  rewrite (bind_ok _ _ _ _ _ Hsugg).
  unfold bind, lift_result, WorkflowGenerationResponse_init.
  rewrite Hstrs. reflexivity.
Qed.

(** A request whose workflow has validation issues leaves the handler
    of the generate endpoint as an [HTTPException] with status 500:
    the one with status 400 raised inside the [try] is caught by the
    [except Exception] around it. *)
Lemma validation_rejection_raises_500
    (request : WorkflowGenerationRequest) (sent : World)
    (issue : string) (issues : list string) :
  validate_workflow (workflow request) = issue :: issues ->
  Endpoints.generate_workflow_code env request sent
  = (Raise (HTTPException 500
              (PStr (str_exn env
                       (Endpoints.validation_failed (issue :: issues))))),
     sent).
Proof.
  intros Hissues.
  unfold Endpoints.generate_workflow_code, try_except.
  rewrite Hissues. reflexivity.
Qed.

(** C1.  The generation request for the workflow Start -> End with a
    Cloud Function node left aside fails validation with two issues,
    and the generate endpoint answers it with status 500 and, as
    detail, the text of the exception that carried status 400, the
    message and the issues. *)
Theorem validation_rejection_answered_500 (sent : World) :
  Endpoints.parse_generation_request Sample.one_orphan_request
  = Ok {| workflow := Sample.one_orphan; target_format := "yaml";
          include_deployment := true; ai_enhance := false |}
  /\ validate_workflow Sample.one_orphan
     = ["Node 'Process' is not connected";
        "Cloud Function node 'Process' missing function_name"]
  /\ Endpoints.post_generate env Sample.one_orphan_request sent
     = (Endpoints.ErrorResponse 500
          (PStr (str_exn env
             (HTTPException 400
                (PDict [("message", PStr "Workflow validation failed");
                        ("issues",
                         PList [PStr "Node 'Process' is not connected";
                                PStr "Cloud Function node 'Process' missing function_name"])])))),
        sent).
Proof.
  repeat split.
Qed.

End Services.

Lemma unparsable_answer_is_wrapped_witness :
  Sample.decode (AIService.json_str_of "I would raise the memory limit.")
  = None
  /\ AIService.enhance_node_configuration
       (Sample.env Sample.prose_model) Sample.fn_a []
     = (Ok (PDict [("raw_response",
                    PStr "I would raise the memory limit.")]),
        ["enhance fn-a"]).
Proof.
  split; [reflexivity|].
  exact (proj2 (unparsable_answer_is_wrapped
                  (Sample.env Sample.prose_model) Sample.fn_a []
                  "I would raise the memory limit."
                  eq_refl eq_refl eq_refl)).
Defined.

(** C6, as stated, fails when the collaborator answers in prose: the
    answer is not a JSON document, and the enhancement returns a
    dictionary instead of raising. *)
Lemma prose_answer_is_not_an_error :
  model_generate_content (Sample.env Sample.prose_model) []
    (_build_enhancement_prompt (Sample.env Sample.prose_model) Sample.fn_a)
  = Ok "I would raise the memory limit."
  /\ json_loads (Sample.env Sample.prose_model)
                (AIService.json_str_of "I would raise the memory limit.")
     = None
  /\ is_ok (fst (AIService.enhance_node_configuration
                   (Sample.env Sample.prose_model) Sample.fn_a []))
     = true
  /\ fst (AIService.enhance_node_configuration
            (Sample.env Sample.prose_model) Sample.fn_a [])
     = Ok (PDict [("raw_response", PStr "I would raise the memory limit.")]).
Proof.
  repeat split.
Qed.

Lemma suggestion_failure_ends_collection_witness :
  WorkflowService._generate_ai_suggestions
    (Sample.env (Sample.fails_on "enhance fn-b")) Sample.chain
    ["workflow test-workflow"; "function fn-a"; "function fn-b"]
  = (Ok [PStr "Use retries"],
     ["workflow test-workflow"; "function fn-a"; "function fn-b";
      "enhance fn-a"; "enhance fn-b"])
  /\ exists files,
       WorkflowService.generate_workflow_code
         (Sample.env (Sample.fails_on "enhance fn-b")) Sample.chain_request []
       = (Ok {| workflow_id := "test-workflow";
                generated_files := files;
                deployment_configs := Some [];
                ai_suggestions := Some ["Use retries"];
                generation_time := "0.0" |},
          ["workflow test-workflow"; "function fn-a"; "function fn-b";
           "enhance fn-a"; "enhance fn-b"]).
Proof.
  pose proof
    (suggestion_failure_ends_collection
       (Sample.env (Sample.fails_on "enhance fn-b")) Sample.chain_request
       [Sample.start_1; Sample.fn_a] [Sample.end_1] Sample.fn_b
       [] _ _ _ _ _ _ _ ["Use retries"] (CollaboratorFailure "unreachable")
       eq_refl eq_refl eq_refl eq_refl eq_refl eq_refl eq_refl eq_refl)
    as [Hs Hg].
  split; [exact Hs|].
  eexists. exact Hg.
Defined.

(** C2, as stated, fails when the collaborator is unreachable for the
    first hinted node only: the second hinted node, whose enhancement
    would have succeeded, is never sent to the collaborator, and the
    returned list is empty, without the general suggestions. *)
Lemma failure_on_first_node_drops_the_rest :
  truthy_str (ai_prompt (config Sample.fn_a)) = true
  /\ truthy_str (ai_prompt (config Sample.fn_b)) = true
  /\ fst (AIService.enhance_node_configuration
            (Sample.env (Sample.fails_on "enhance fn-a")) Sample.fn_a [])
     = Raise (CollaboratorFailure "unreachable")
  /\ fst (AIService.enhance_node_configuration
            (Sample.env (Sample.fails_on "enhance fn-a")) Sample.fn_b
            ["enhance fn-a"])
     = Ok (PDict [("suggestions", PList [PStr "Use retries"])])
  /\ WorkflowService._generate_ai_suggestions
       (Sample.env (Sample.fails_on "enhance fn-a")) Sample.chain []
     = (Ok [], ["enhance fn-a"]).
Proof.
  repeat split.
Qed.

(* ================================================================== *)
(** ** Properties of the fenced-block extraction *)
(* ================================================================== *)

Section Extraction.

Lemma length_append (a b : string) :
  String.length (a ++ b) = String.length a + String.length b.
Proof. induction a as [|c a IH]; cbn; [reflexivity | now rewrite IH]. Qed.

Lemma skip_append (a b : string) : skip (String.length a) (a ++ b) = b.
Proof. induction a as [|c a IH]; cbn; [reflexivity | exact IH]. Qed.

Lemma take_append (a b : string) : take (String.length a) (a ++ b) = a.
Proof. induction a as [|c a IH]; cbn; [reflexivity | now rewrite IH]. Qed.

Lemma skip_add (n m : nat) (s : string) : skip (n + m) s = skip m (skip n s).
Proof.
  revert s. induction n as [|n IH]; intros s; cbn [Nat.add skip].
  - reflexivity.
  - destruct s as [|c s]; [now destruct m | apply IH].
Qed.

Lemma slice_bound_nonneg (n : nat) (i : Z) :
  (0 <= i)%Z -> slice_bound n i = Nat.min (Z.to_nat i) n.
Proof.
  intros Hi. unfold slice_bound.
  destruct (i <? 0)%Z eqn:Hneg; [apply Z.ltb_lt in Hneg; lia|].
  now rewrite Hneg.
Qed.

Lemma find_from_unfold (sub s : string) (pos : nat) :
  find_from sub s pos
  = if startswith s sub then Some pos
    else match s with
         | EmptyString => None
         | String _ s' => find_from sub s' (S pos)
         end.
Proof. destruct s; reflexivity. Qed.

(** [find_from] returns the first occurrence. *)
Lemma find_from_first_at (sub s : string) (i k : nat) :
  first_at sub s i -> find_from sub s k = Some (k + i).
Proof.
  revert s k. induction i as [|i IH]; intros s k (Hlen & Hat & Hbefore).
  - rewrite find_from_unfold. cbn [skip] in Hat. rewrite Hat.
    now rewrite Nat.add_0_r.
  - rewrite find_from_unfold.
    pose proof (Hbefore 0 (Nat.lt_0_succ i)) as H0.
    cbn [skip] in H0. rewrite H0.
    destruct s as [|c s]; [cbn in Hlen; lia|].
    rewrite (IH s (S k)); [f_equal; lia|].
    repeat split.
    + cbn in Hlen. lia.
    + exact Hat.
    + intros j Hj. apply (Hbefore (S j)). lia.
Qed.

Lemma startswith_append (s a b : string) :
  startswith s (a ++ b) = true -> startswith s a = true.
Proof.
  revert s. induction a as [|c a IH]; intros s; cbn.
  - reflexivity.
  - destruct s as [|d s]; [discriminate|].
    destruct (c =? d)%char; cbn; [apply IH | discriminate].
Qed.

Lemma find_from_none_append (a b s : string) (k : nat) :
  find_from a s k = None -> find_from (a ++ b) s k = None.
Proof.
  revert k. induction s as [|c s IH]; intros k;
    rewrite !(find_from_unfold _ _ k).
  - destruct (startswith EmptyString a) eqn:Ha; [discriminate|].
    destruct (startswith EmptyString (a ++ b)) eqn:Hab; [|reflexivity].
    apply startswith_append in Hab. congruence.
  - destruct (startswith (String c s) a) eqn:Ha; [discriminate|].
    destruct (startswith (String c s) (a ++ b)) eqn:Hab.
    + apply startswith_append in Hab. congruence.
    + apply IH.
Qed.

(** The slice the extractors take when [marker] opens a block that a
    fence closes. *)
Lemma block_slice (response marker interior : string) :
  has_block response marker interior ->
  contains marker response = true
  /\ (let start := (find response marker 0 + len marker)%Z in
      let end_ := find response AIService.fence start in
      slice response start end_ = interior).
Proof.
  intros (pre & post & Hresp & Hopen & Hclose).
  pose proof (find_from_first_at _ _ _ 0 Hopen) as Hfind. cbn [Nat.add] in Hfind.
  split; [unfold contains; now rewrite Hfind|].
  assert (Hlen : String.length response
                 = String.length pre + String.length marker
                   + (String.length interior
                      + String.length (AIService.fence ++ post)))
    by (rewrite Hresp, !length_append; lia).
  assert (Hskip : forall n, n = String.length pre + String.length marker ->
                            skip n response
                            = interior ++ AIService.fence ++ post).
  { intros n ->. rewrite skip_add, Hresp, skip_append. apply skip_append. }
  assert (Hstart : find response marker 0 = Z.of_nat (String.length pre)).
  { unfold find. cbn [Z.ltb Z.compare Z.to_nat skip].
    destruct (Z.of_nat (String.length response) <? 0)%Z eqn:Hneg;
      [apply Z.ltb_lt in Hneg; lia|].
    now rewrite Hfind. }
  cbn zeta. rewrite Hstart. unfold len.
  set (start := (Z.of_nat (String.length pre)
                 + Z.of_nat (String.length marker))%Z).
  assert (Hnat : Z.to_nat start = String.length pre + String.length marker)
    by (unfold start; lia).
  assert (Hend : find response AIService.fence start
                 = (start + Z.of_nat (String.length interior))%Z).
  { unfold find.
    destruct (start <? 0)%Z eqn:Hneg; [apply Z.ltb_lt in Hneg; lia|].
    destruct (Z.of_nat (String.length response) <? start)%Z eqn:Hbig;
      [apply Z.ltb_lt in Hbig; lia|].
    rewrite (Hskip _ Hnat).
    rewrite (find_from_first_at _ _ _ (Z.to_nat start) Hclose). lia. }
  rewrite Hend. unfold slice.
  rewrite !slice_bound_nonneg by lia.
  replace (Nat.min (Z.to_nat start) (String.length response))
    with (String.length pre + String.length marker) by lia.
  replace (Nat.min (Z.to_nat (start + Z.of_nat (String.length interior)))
                   (String.length response)
           - (String.length pre + String.length marker))
    with (String.length interior) by lia.
  rewrite (Hskip _ eq_refl). apply take_append.
Qed.

(** The three cases of the extraction on a response whose fences are
    closed: a block tagged with the language, else the first block,
    else the whole response; trimmed in each case. *)
Lemma extract_tagged_block (response language interior : string) :
  has_block response ("```" ++ language) interior ->
  AIService._extract_code_from_response response language = strip interior.
Proof.
  intros Hblock. destruct (block_slice _ _ _ Hblock) as [Hin Hslice].
  unfold AIService._extract_code_from_response. cbn zeta.
  rewrite Hin. cbn zeta in Hslice. unfold AIService.fence in Hslice.
  now rewrite Hslice.
Qed.

Lemma extract_first_block (response language interior : string) :
  contains ("```" ++ language) response = false ->
  has_block response "```" interior ->
  AIService._extract_code_from_response response language = strip interior.
Proof.
  intros Hnot Hblock. destruct (block_slice _ _ _ Hblock) as [Hin Hslice].
  unfold AIService._extract_code_from_response. cbn zeta.
  rewrite Hnot, Hin. cbn zeta in Hslice.
  unfold AIService.fence in Hslice. change (len "```") with 3%Z in Hslice.
  now rewrite Hslice.
Qed.

Lemma extract_without_fence (response language : string) :
  contains "```" response = false ->
  AIService._extract_code_from_response response language = strip response.
Proof.
  intros Hnot. unfold AIService._extract_code_from_response. cbn zeta.
  rewrite Hnot.
  assert (Htag : contains ("```" ++ language) response = false).
  { unfold contains in *.
    destruct (find_from "```" response 0) eqn:Hf; [discriminate|].
    now rewrite (find_from_none_append _ language _ _ Hf). }
  now rewrite Htag.
Qed.

(** A response with a closed block tagged [python]. *)
Example has_block_python :
  has_block "Here: ```python print(1) ``` bye" "```python" " print(1) ".
Proof.
  exists "Here: ", " bye". split; [reflexivity|].
  split; (split; [cbn; lia|]); (split; [reflexivity|]); intros j Hj;
    do 10 (destruct j as [|j]; [try reflexivity; cbn in Hj; lia|]);
    cbn in Hj; lia.
Qed.

Lemma _extract_yaml_from_response_eq (response : string) :
  AIService._extract_yaml_from_response response
  = AIService._extract_code_from_response response "yaml".
Proof. reflexivity. Qed.

(** C4.  On a response that opens a block tagged [python] and never
    closes it, the search for the closing fence returns [-1] and the
    slice ends one character before the end of the response: the
    extraction returns the text after the tag without its last
    character, which is neither the interior of the block nor the
    whole response trimmed.  With the fence closed, the interior is
    returned. *)
Theorem unclosed_fence_loses_last_character :
  contains "```python" "```python print(1)" = true
  /\ find "```python print(1)" "```" 9 = (-1)%Z
  /\ AIService._extract_code_from_response "```python print(1)" "python"
     = "print(1"
  /\ AIService._extract_yaml_from_response "```yaml steps: []"
     = "steps: ["
  /\ strip "```python print(1)" = "```python print(1)"
  /\ AIService._extract_code_from_response "```python print(1)```" "python"
     = "print(1)".
Proof.
  repeat split.
Qed.

End Extraction.

(* ================================================================== *)
(** ** Further properties of the validator *)
(* ================================================================== *)

Section ValidatorFurther.

Import WorkflowService.

Lemma config_issue_form (node : WorkflowNode) (issue : string) :
  In issue (_validate_node_config node) ->
  exists label v kind,
    required_field node = Some (label, v)
    /\ truthy_str v = false
    /\ issue = kind ++ "'" ++ name (config node) ++ "' missing " ++ label.
Proof.
  unfold _validate_node_config, required_field.
  destruct (type node); cbn [In]; intros H; try contradiction;
    match type of H with
    | In _ (if negb (truthy_str ?f) then _ else _) =>
        destruct (truthy_str f) eqn:Hf; cbn [negb In] in H;
        try contradiction; destruct H as [<- | []]; eexists
    end.
  - exists (function_name (config node)), "Cloud Function node ". now repeat split.
  - exists (service_name (config node)), "Cloud Run node ". now repeat split.
  - exists (topic_name (config node)), "Pub/Sub Publish node ". now repeat split.
  - exists (subscription_name (config node)), "Pub/Sub Subscribe node ".
    now repeat split.
  - exists (url (config node)), "HTTP Request node ". now repeat split.
  - exists (condition (config node)), "Condition node ". now repeat split.
Qed.

Lemma config_empty_iff (node : WorkflowNode) :
  _validate_node_config node = [] <-> field_present node = true.
Proof.
  unfold _validate_node_config, field_present, required_field.
  destruct (type node); try (split; reflexivity);
    match goal with
    | |- context [negb (truthy_str ?f)] => destruct (truthy_str f)
    end; cbn [negb]; split; intros H; try reflexivity; discriminate.
Qed.

(** X: the table of required fields.  A node has a configuration issue
    exactly when the field its type asks for is absent or the empty
    string; it never has more than one; the issue quotes the node's
    display name and ends with the label of the field; Start, End,
    Parallel, Delay, Assign, Call, Switch, ForLoop and TryCatch nodes
    never have one. *)
Theorem required_field_issue (node : WorkflowNode) :
  (_validate_node_config node = [] <-> field_present node = true)
  /\ List.length (_validate_node_config node) <= 1
  /\ (forall issue, In issue (_validate_node_config node) ->
        exists label v kind,
          required_field node = Some (label, v)
          /\ truthy_str v = false
          /\ issue
             = kind ++ "'" ++ name (config node) ++ "' missing " ++ label)
  /\ (required_field node = None -> _validate_node_config node = []).
Proof.
  split; [apply config_empty_iff|].
  split.
  { unfold _validate_node_config.
    destruct (type node); cbn; try lia;
      match goal with
      | |- context [negb ?b] => destruct b
      end; cbn; lia. }
  split; [apply config_issue_form|].
  intros Hnone. apply config_empty_iff. unfold field_present.
  now rewrite Hnone.
Qed.

Lemma map_filter_nil {A B} (f : A -> B) (p : A -> bool) (l : list A) :
  map f (filter p l) = [] <-> forall a, In a l -> p a = false.
Proof.
  induction l as [|a l IH]; cbn [filter map].
  - split; [intros _ a [] | reflexivity].
  - destruct (p a) eqn:Hp; cbn [map].
    + split; [discriminate|]. intros H. specialize (H a (or_introl eq_refl)).
      congruence.
    + rewrite IH. split.
      * intros H b [<- | Hb]; [exact Hp | now apply H].
      * intros H b Hb. apply H. now right.
Qed.

Lemma flat_map_nil {A B} (f : A -> list B) (l : list A) :
  flat_map f l = [] <-> forall a, In a l -> f a = [].
Proof.
  induction l as [|a l IH]; cbn [flat_map].
  - split; [intros _ a [] | reflexivity].
  - split.
    + intros H. apply app_eq_nil in H. destruct H as [Ha Hl].
      intros b [<- | Hb]; [exact Ha | now apply IH].
    + intros H. rewrite (H a (or_introl eq_refl)). cbn [app].
      apply IH. intros b Hb. apply H. now right.
Qed.

Lemma cardinality_nil_iff (workflow : Workflow) :
  cardinality_issues workflow = []
  <-> List.length (nodes_of_type START (nodes workflow)) = 1
      /\ 1 <= List.length (nodes_of_type END (nodes workflow)).
Proof.
  unfold cardinality_issues.
  destruct (Nat.eqb_spec
              (List.length (nodes_of_type START (nodes workflow))) 1)
    as [Hs|Hs];
    destruct (Nat.eqb_spec
                (List.length (nodes_of_type END (nodes workflow))) 0)
      as [He|He];
    cbn [negb app]; split;
    try discriminate; try reflexivity; try (intros [H1 H2]; lia).
  intros _. split; lia.
Qed.

(** X: what "no issue" means.  The validator returns the empty list
    exactly for the workflows with one Start node, at least one End
    node, no orphaned node and every required field present. *)
Theorem no_issue_iff (workflow : Workflow) :
  validate_workflow workflow = []
  <-> List.length (nodes_of_type START (nodes workflow)) = 1
      /\ 1 <= List.length (nodes_of_type END (nodes workflow))
      /\ (forall node, In node (nodes workflow) ->
            orphaned workflow node = false)
      /\ (forall node, In node (nodes workflow) ->
            field_present node = true).
Proof.
  rewrite validate_workflow_eq. split.
  - intros H. apply app_eq_nil in H. destruct H as [Hc H].
    apply app_eq_nil in H. destruct H as [Ho Hf].
    apply cardinality_nil_iff in Hc. destruct Hc as [Hs He].
    repeat split; try assumption.
    + now apply (proj1 (map_filter_nil _ _ _) Ho).
    + intros node Hin. apply config_empty_iff.
      now apply (proj1 (flat_map_nil _ _) Hf).
  - intros (Hs & He & Ho & Hf).
    rewrite (proj2 (cardinality_nil_iff workflow) (conj Hs He)).
    rewrite (proj2 (map_filter_nil _ _ _) Ho).
    rewrite (proj2 (flat_map_nil _ _)); [reflexivity|].
    intros node Hin. apply config_empty_iff. now apply Hf.
Qed.

(** X: every issue is one of the two cardinality issues or quotes the
    display name of a node of the workflow. *)
Theorem issues_name_their_node (workflow : Workflow) (issue : string) :
  In issue (validate_workflow workflow) ->
  issue = start_issue \/ issue = end_issue
  \/ exists node, In node (nodes workflow) /\ quotes_name issue node.
Proof.
  rewrite validate_workflow_eq, !in_app_iff, in_map_iff, in_flat_map.
  intros [Hc | [(node & <- & Hin) | (node & Hin & Hissue)]].
  - unfold cardinality_issues in Hc.
    destruct (negb _); destruct (_ =? 0)%nat; cbn in Hc; intuition.
  - right. right. exists node. apply filter_In in Hin.
    split; [apply Hin|]. exists "Node ", " is not connected". reflexivity.
  - right. right. exists node. split; [exact Hin|].
    destruct (config_issue_form node issue Hissue) as (label & v & kind & _ & _ & ->).
    exists kind, (" missing " ++ label). reflexivity.
Qed.

(** X: Start and End nodes are exempt from the connectivity and the
    configuration checks.  A workflow that has no other node gets the
    cardinality issues only, whatever its connections. *)
Theorem start_end_nodes_are_exempt (workflow : Workflow) :
  (forall node, In node (nodes workflow) ->
     type node = START \/ type node = END) ->
  validate_workflow workflow = cardinality_issues workflow.
Proof.
  intros Hall. rewrite validate_workflow_eq.
  rewrite (proj2 (map_filter_nil _ _ _)).
  - rewrite (proj2 (flat_map_nil _ _)); [now rewrite !app_nil_r|].
    intros node Hin. unfold _validate_node_config.
    destruct (Hall node Hin) as [-> | ->]; reflexivity.
  - intros node Hin. unfold orphaned, is_inner.
    destruct (Hall node Hin) as [-> | ->]; reflexivity.
Qed.

Lemma mem_app (x : string) (l l' : list string) :
  mem x (l ++ l')%list = mem x l || mem x l'.
Proof. unfold mem. apply existsb_app. Qed.

Lemma orphaned_add_connection (workflow : Workflow) (c : WorkflowConnection)
    (node : WorkflowNode) :
  orphaned (add_connection workflow c) node
  = orphaned workflow node
    && negb (id node =? target_node_id c)
    && negb (id node =? source_node_id c).
Proof.
  unfold orphaned, add_connection. cbn [connections].
  rewrite !map_app, !mem_app. cbn [map]. unfold mem at 2 4.
  cbn [existsb]. rewrite !orb_false_r.
  destruct (is_inner node); cbn [andb]; [|reflexivity].
  destruct (mem (id node) (map target_node_id (connections workflow)));
    destruct (mem (id node) (map source_node_id (connections workflow)));
    destruct (id node =? target_node_id c);
    destruct (id node =? source_node_id c); reflexivity.
Qed.

Lemma validate_add_connection (workflow : Workflow) (c : WorkflowConnection) :
  validate_workflow (add_connection workflow c)
  = (cardinality_issues workflow
     ++ map not_connected_issue
          (filter (fun node =>
                     orphaned workflow node
                     && negb (id node =? target_node_id c)
                     && negb (id node =? source_node_id c))
                  (nodes workflow))
     ++ flat_map _validate_node_config (nodes workflow))%list.
Proof.
  rewrite validate_workflow_eq. cbn [add_connection nodes].
  f_equal. f_equal. f_equal. apply filter_ext.
  intros node. apply orphaned_add_connection.
Qed.

(** X: connections are never checked against the nodes.  Adding a
    connection whose source and target are the ids of no node leaves
    the issue list as it was: a dangling connection is not reported. *)
Theorem dangling_connection_is_not_reported
    (workflow : Workflow) (c : WorkflowConnection) :
  (forall node, In node (nodes workflow) ->
     id node <> source_node_id c /\ id node <> target_node_id c) ->
  validate_workflow (add_connection workflow c) = validate_workflow workflow.
Proof.
  intros Hdangling.
  rewrite validate_add_connection, validate_workflow_eq.
  f_equal. f_equal. f_equal.
  induction (nodes workflow) as [|node ns IH]; cbn [filter]; [reflexivity|].
  destruct (Hdangling node (or_introl eq_refl)) as [Hs Ht].
  apply String.eqb_neq in Hs, Ht. rewrite Hs, Ht, !andb_true_r.
  rewrite IH; [reflexivity|].
  intros n Hn. apply Hdangling. now right.
Qed.

(** X: a connection can silence issues, never raise one.  Every issue
    of the workflow with one more connection is an issue of the
    workflow without it, and a connection from a node to itself is
    enough to silence the connectivity issue of that node. *)
Theorem connections_only_silence_issues
    (workflow : Workflow) (c : WorkflowConnection) :
  incl (validate_workflow (add_connection workflow c))
       (validate_workflow workflow)
  /\ (forall node,
        In node (nodes workflow) ->
        source_node_id c = id node ->
        orphaned (add_connection workflow c) node = false).
Proof.
  split.
  - rewrite validate_add_connection, validate_workflow_eq.
    intros issue. rewrite !in_app_iff, !in_map_iff.
    intros [Hc | [(node & <- & Hin) | Hf]]; [now left | | now right; right].
    right. left. exists node. split; [reflexivity|].
    apply filter_In in Hin. destruct Hin as [Hin Hb].
    apply filter_In. split; [exact Hin|].
    now destruct (orphaned workflow node).
  - intros node _ Hsrc. rewrite orphaned_add_connection, Hsrc.
    rewrite String.eqb_refl. cbn [negb]. now rewrite andb_false_r.
Qed.

End ValidatorFurther.

Lemma issues_name_their_node_witness :
  In "Cloud Function node 'Process' missing function_name"
     (WorkflowService.validate_workflow Sample.one_orphan)
  /\ ("Cloud Function node 'Process' missing function_name"
      = WorkflowService.start_issue
      \/ "Cloud Function node 'Process' missing function_name"
         = WorkflowService.end_issue
      \/ exists node,
           In node (nodes Sample.one_orphan)
           /\ quotes_name
                "Cloud Function node 'Process' missing function_name" node).
Proof.
  assert (Hin : In "Cloud Function node 'Process' missing function_name"
                   (WorkflowService.validate_workflow Sample.one_orphan))
    by (right; left; reflexivity).
  split; [exact Hin|].
  exact (issues_name_their_node Sample.one_orphan _ Hin).
Defined.

Lemma start_end_nodes_are_exempt_witness :
  WorkflowService.validate_workflow
    (Sample.mk_workflow [Sample.start_1; Sample.end_1] [])
  = [].
Proof.
  refine (start_end_nodes_are_exempt
            (Sample.mk_workflow [Sample.start_1; Sample.end_1] []) _).
  intros node [<- | [<- | []]]; [left | right]; reflexivity.
Defined.

Lemma dangling_connection_is_not_reported_witness :
  WorkflowService.validate_workflow
    (add_connection Sample.chain
       (Sample.mk_connection "conn-9" "ghost-1" "ghost-2"))
  = WorkflowService.validate_workflow Sample.chain.
Proof.
  apply (dangling_connection_is_not_reported Sample.chain
           (Sample.mk_connection "conn-9" "ghost-1" "ghost-2")).
  intros node [<- | [<- | [<- | [<- | []]]]]; split; discriminate.
Defined.

Section ReadsCore.

Import WorkflowService.

Lemma core_forall2 (ns1 ns2 : list WorkflowNode) :
  map core ns1 = map core ns2 ->
  Forall2 (fun a b => core a = core b) ns1 ns2.
Proof.
  revert ns2. induction ns1 as [|a ns1 IH]; intros [|b ns2]; cbn [map];
    try discriminate; intros H; constructor.
  - exact (f_equal (hd (core a)) H).
  - apply IH. exact (f_equal (@tl _) H).
Qed.

Lemma core_eq (a b : WorkflowNode) :
  core a = core b -> id a = id b /\ type a = type b /\ config a = config b.
Proof. unfold core. intros [= -> -> ->]. repeat split. Qed.

(** X: the validator reads the id, the type and the configuration of
    each node and the endpoints of each connection, nothing else.  Two
    workflows that agree on these get the same issues, whatever their
    positions, [inputs] and [outputs] lists, timestamps, metadata and
    connection ids; in particular [inputs] and [outputs] are never
    compared with the connections. *)
Theorem validator_reads_core_only (w1 w2 : Workflow) :
  map core (nodes w1) = map core (nodes w2) ->
  map source_node_id (connections w1) = map source_node_id (connections w2) ->
  map target_node_id (connections w1) = map target_node_id (connections w2) ->
  validate_workflow w1 = validate_workflow w2.
Proof.
  intros Hcore Hsrc Htgt. rewrite !validate_workflow_eq.
  apply core_forall2 in Hcore.
  assert (Horph : forall a b, core a = core b ->
                              orphaned w1 a = orphaned w2 b).
  { intros a b Hab. destruct (core_eq a b Hab) as (Hid & Hty & _).
    unfold orphaned, is_inner. now rewrite Hid, Hty, Hsrc, Htgt. }
  assert (Hcount : forall t,
             List.length (nodes_of_type t (nodes w1))
             = List.length (nodes_of_type t (nodes w2))).
  { intros t. unfold nodes_of_type.
    induction Hcore as [|a b l1 l2 Hab _ IH]; cbn [filter]; [reflexivity|].
    destruct (core_eq a b Hab) as (_ & -> & _).
    destruct (type_eqb (type b) t); cbn [List.length]; now rewrite IH. }
  f_equal; [unfold cardinality_issues; now rewrite !Hcount|].
  clear Hcount. f_equal.
  - induction Hcore as [|a b l1 l2 Hab _ IH]; cbn [filter]; [reflexivity|].
    rewrite (Horph a b Hab).
    destruct (orphaned w2 b); cbn [map]; rewrite IH; [|reflexivity].
    f_equal. unfold not_connected_issue.
    destruct (core_eq a b Hab) as (_ & _ & ->). reflexivity.
  - induction Hcore as [|a b l1 l2 Hab _ IH]; cbn [flat_map]; [reflexivity|].
    rewrite IH. f_equal. unfold _validate_node_config.
    destruct (core_eq a b Hab) as (_ & -> & ->). reflexivity.
Qed.

End ReadsCore.

Lemma validator_reads_core_only_witness :
  WorkflowService.validate_workflow
    (Sample.mk_workflow
       [Sample.start_1; Sample.fn_bare; Sample.end_1]
       [Sample.mk_connection "conn-1" "start-1" "end-1"])
  = WorkflowService.validate_workflow
      {| wf_id := "other"; metadata := Sample.test_metadata;
         nodes :=
           [Sample.start_1;
            {| id := "fn-1"; type := CLOUD_FUNCTION;
               position := {| x := "7"; y := "8" |};
               config := Sample.mk_config "Process";
               inputs := ["nowhere"]; outputs := ["elsewhere"];
               created_at := 5%Z; updated_at := 6%Z |};
            Sample.end_1];
         connections := [Sample.mk_connection "renamed" "start-1" "end-1"] |}.
Proof.
  apply validator_reads_core_only; reflexivity.
Defined.

(* ================================================================== *)
(** ** Further properties of the step compiler *)
(* ================================================================== *)

Section CompilerFurther.

Import WorkflowService.

Context (env : Env).

Lemma fmt_nat_inj (i j : nat) : fmt_nat i = fmt_nat j -> i = j.
Proof.
  unfold fmt_nat. intros H.
  apply (f_equal NilEmpty.uint_of_string) in H.
  rewrite !NilEmpty.usu in H. injection H as H.
  now apply DecimalNat.Unsigned.to_uint_inj.
Qed.

Lemma step_key_of (i : nat) (node : WorkflowNode) :
  step_key (step_of env (i, node))
  = Some (if type_eqb (type node) END
          then "end_step_" ++ fmt_nat i else "step_" ++ fmt_nat i).
Proof. unfold step_of. destruct (type_eqb (type node) END); reflexivity. Qed.

Lemma step_key_inj (a b : nat * WorkflowNode) :
  step_key (step_of env a) = step_key (step_of env b) -> fst a = fst b.
Proof.
  destruct a as [i n], b as [j m]. rewrite !step_key_of. cbn [fst].
  destruct (type_eqb (type n) END); destruct (type_eqb (type m) END);
    cbn; intros [= H]; now apply fmt_nat_inj.
Qed.

Lemma map_fst_combine_seq {A} (l : list A) (k : nat) :
  map fst (combine (seq k (List.length l)) l) = seq k (List.length l).
Proof.
  revert k. induction l as [|a l IH]; intros k; cbn; [reflexivity|].
  now rewrite IH.
Qed.

Lemma NoDup_map_fst_filter {A B} (p : A * B -> bool) (l : list (A * B)) :
  NoDup (map fst l) -> NoDup (map fst (filter p l)).
Proof.
  induction l as [|a l IH]; cbn [filter map]; [trivial|].
  intros Hnd. inversion Hnd as [|x xs Hnot Hrest]; subst.
  destruct (p a); cbn [map]; [|now apply IH].
  constructor; [|now apply IH].
  intros Hin. apply Hnot. apply in_map_iff in Hin.
  destruct Hin as (b & Hb & Hin). apply filter_In in Hin.
  apply in_map_iff. exists b. now split.
Qed.

Lemma NoDup_map_of_fst {A B C} (f : A * B -> C) (l : list (A * B)) :
  (forall a b, f a = f b -> fst a = fst b) ->
  NoDup (map fst l) -> NoDup (map f l).
Proof.
  intros Hinj. induction l as [|a l IH]; cbn [map]; [constructor|].
  intros Hnd. inversion Hnd as [|x xs Hnot Hrest]; subst.
  constructor; [|now apply IH].
  intros Hin. apply Hnot. apply in_map_iff in Hin.
  destruct Hin as (b & Hb & Hin). apply in_map_iff.
  exists b. split; [now apply Hinj | exact Hin].
Qed.

(** X: no two steps of a step list carry the same key. *)
Theorem step_keys_are_distinct (workflow : Workflow) :
  NoDup (map step_key (workflow_steps env workflow)).
Proof.
  rewrite workflow_steps_eq, map_map.
  apply NoDup_map_of_fst; [apply step_key_inj|].
  apply NoDup_map_fst_filter. unfold enumerate.
  rewrite map_fst_combine_seq. apply seq_NoDup.
Qed.

Lemma filter_split_length {A} (p : A -> bool) (l : list A) :
  List.length (filter p l) + List.length (filter (fun a => negb (p a)) l)
  = List.length l.
Proof.
  induction l as [|a l IH]; cbn [filter]; [reflexivity|].
  destruct (p a); cbn [negb List.length]; lia.
Qed.

Lemma in_enumerate_from (ns : list WorkflowNode) (k : nat)
    (node : WorkflowNode) :
  In node ns -> exists i, In (i, node) (combine (seq k (List.length ns)) ns).
Proof.
  revert k. induction ns as [|n ns IH]; intros k; [intros []|].
  cbn [List.length seq combine In]. intros [<- | Hin].
  - exists k. now left.
  - destruct (IH (S k) Hin) as [i Hi]. exists i. now right.
Qed.

(** X: the step list of a constructed workflow.  A workflow that the
    constructor accepted compiles to one step less than it has nodes,
    and its step list holds a return step; it is never empty. *)
Theorem constructed_workflow_compiles
    (i : string) (m : WorkflowMetadata) (ns : list WorkflowNode)
    (cs : list WorkflowConnection) (workflow : Workflow) :
  Workflow_init i m ns cs = Ok workflow ->
  List.length (workflow_steps env workflow)
  = List.length (nodes workflow) - 1
  /\ workflow_steps env workflow <> []
  /\ exists k,
       In (PDict [("end_step_" ++ fmt_nat k,
                   PDict [("return", PStr "${result}")])])
          (workflow_steps env workflow).
Proof.
  unfold Workflow_init. intros Hinit.
  destruct (validate_nodes ns) as [v|e] eqn:Hv; [|now destruct e].
  injection Hinit as <-. cbn [nodes].
  destruct (validate_nodes_ok ns v Hv) as [-> (Hne & Hs & He)].
  set (w := {| wf_id := i; metadata := m; nodes := ns; connections := cs |}).
  assert (Hlen : List.length (workflow_steps env w) = List.length ns - 1).
  { rewrite workflow_steps_eq, length_map.
    unfold enumerate, w. cbn [nodes].
    rewrite <- (length_map snd), (filter_combine_seq ns 0).
    pose proof (filter_split_length
                  (fun node => type_eqb (type node) START) ns) as Hsplit.
    cbn beta in Hsplit. unfold nodes_of_type in Hs.
    change (filter non_start ns)
      with (filter (fun a => negb (type_eqb (type a) START)) ns).
    lia. }
  assert (Hend : exists k,
             In (PDict [("end_step_" ++ fmt_nat k,
                         PDict [("return", PStr "${result}")])])
                (workflow_steps env w)).
  { unfold nodes_of_type in He.
    destruct (filter (fun node => type_eqb (type node) END) ns)
      as [|node l] eqn:Hf; [cbn in He; lia|].
    assert (Hin : In node (filter (fun node => type_eqb (type node) END) ns))
      by (rewrite Hf; now left).
    apply filter_In in Hin. destruct Hin as [Hin Hty].
    destruct (in_enumerate_from ns 0 node Hin) as [k Hk].
    exists k. rewrite workflow_steps_eq. apply in_map_iff.
    unfold enumerate, w. cbn [nodes].
    exists (k, node). split.
    - unfold step_of. now rewrite Hty.
    - apply filter_In. split; [exact Hk|].
      unfold emits, non_start. cbn [snd].
      destruct (type node); try reflexivity; discriminate. }
  split; [exact Hlen|]. split; [|exact Hend].
  destruct Hend as [k Hk]. intros Hnil. rewrite Hnil in Hk. destruct Hk.
Qed.

Lemma enumerate_app (ns extra : list WorkflowNode) (k : nat) :
  combine (seq k (List.length (ns ++ extra))) (ns ++ extra)
  = (combine (seq k (List.length ns)) ns
     ++ combine (seq (k + List.length ns) (List.length extra)) extra)%list.
Proof.
  revert k. induction ns as [|n ns IH]; intros k; cbn [app List.length].
  - now rewrite Nat.add_0_r.
  - cbn [seq combine app]. rewrite IH.
    replace (k + S (List.length ns)) with (S k + List.length ns) by lia.
    reflexivity.
Qed.

(** X: nodes appended to the node list leave the steps of the nodes
    before them as they were.  The step list of the longer workflow is
    the step list of the shorter one followed by the steps of the
    added nodes, which are numbered from the length of the shorter
    node list on. *)
Theorem appended_nodes_keep_earlier_steps
    (workflow : Workflow) (ns extra : list WorkflowNode) :
  workflow_steps env (with_nodes workflow (ns ++ extra))
  = (workflow_steps env (with_nodes workflow ns)
     ++ map (step_of env)
          (filter emits
             (combine (seq (List.length ns) (List.length extra)) extra)))%list.
Proof.
  rewrite !workflow_steps_eq. unfold enumerate, with_nodes. cbn [nodes].
  rewrite enumerate_app, filter_app, map_app. reflexivity.
Qed.

(** X: the compiler reads the type and the configuration of each node,
    nothing else.  Connections, node ids, positions and metadata have
    no effect on the step list: two workflows whose node lists agree
    on types and configurations compile to the same steps. *)
Theorem compiler_ignores_connections (w1 w2 : Workflow) :
  map (fun node => (type node, config node)) (nodes w1)
  = map (fun node => (type node, config node)) (nodes w2) ->
  workflow_steps env w1 = workflow_steps env w2
  /\ _generate_basic_workflow_yaml env w1
     = _generate_basic_workflow_yaml env w2.
Proof.
  intros Hsame.
  assert (Hsteps : workflow_steps env w1 = workflow_steps env w2).
  { rewrite !workflow_steps_eq. unfold enumerate.
    generalize 0 as k. revert Hsame.
    generalize (nodes w2) as ns2. generalize (nodes w1) as ns1.
    induction ns1 as [|a ns1 IH]; intros [|b ns2]; cbn [map];
      try discriminate; [reflexivity|].
    intros [= Hty Hcfg Hrest] k. cbn [List.length seq combine filter].
    assert (He : emits (k, a) = emits (k, b))
      by (unfold emits, non_start; cbn [snd]; now rewrite Hty).
    assert (Hs : step_of env (k, a) = step_of env (k, b))
      by (unfold step_of, _node_to_workflow_step; now rewrite Hty, Hcfg).
    rewrite He. destruct (emits (k, b)); cbn [map];
      rewrite (IH ns2 Hrest (S k)); [now rewrite Hs | reflexivity]. }
  split; [exact Hsteps|].
  unfold _generate_basic_workflow_yaml, workflow_def. now rewrite Hsteps.
Qed.

End CompilerFurther.

Lemma constructed_workflow_compiles_witness :
  Workflow_init "test-workflow" Sample.test_metadata
                (nodes Sample.chain) (connections Sample.chain)
  = Ok Sample.chain
  /\ List.length (WorkflowService.workflow_steps
                    (Sample.env Sample.prose_model) Sample.chain)
     = 3.
Proof.
  split; [reflexivity|].
  exact (proj1 (constructed_workflow_compiles
                  (Sample.env Sample.prose_model)
                  "test-workflow" Sample.test_metadata
                  (nodes Sample.chain) (connections Sample.chain)
                  Sample.chain eq_refl)).
Defined.

Lemma compiler_ignores_connections_witness :
  WorkflowService.workflow_steps (Sample.env Sample.prose_model) Sample.chain
  = WorkflowService.workflow_steps (Sample.env Sample.prose_model)
                                   Sample.two_orphans.
Proof.
  exact (proj1 (compiler_ignores_connections
                  (Sample.env Sample.prose_model)
                  Sample.chain Sample.two_orphans eq_refl)).
Defined.

(* ================================================================== *)
(** ** Further properties of the fenced-block extraction *)
(* ================================================================== *)

Lemma extract_tagged_block_witness :
  AIService._extract_code_from_response
    "Try ```x``` or ```python print(1) ``` bye" "python"
  = "print(1)".
Proof.
  refine (extract_tagged_block
            "Try ```x``` or ```python print(1) ``` bye" "python"
            " print(1) " _).
  exists "Try ```x``` or ", " bye". split; [reflexivity|].
  split; (split; [cbn; lia|]); (split; [reflexivity|]); intros j Hj;
    do 16 (destruct j as [|j]; [try reflexivity; cbn in Hj; lia|]);
    cbn in Hj; lia.
Defined.

Lemma extract_first_block_witness :
  AIService._extract_code_from_response
    "Here: ``` print(1) ``` bye" "python"
  = "print(1)".
Proof.
  refine (extract_first_block
            "Here: ``` print(1) ``` bye" "python" " print(1) " eq_refl _).
  exists "Here: ", " bye". split; [reflexivity|].
  split; (split; [cbn; lia|]); (split; [reflexivity|]); intros j Hj;
    do 11 (destruct j as [|j]; [try reflexivity; cbn in Hj; lia|]);
    cbn in Hj; lia.
Defined.

Lemma extract_without_fence_witness :
  AIService._extract_code_from_response "  print(1)  " "python" = "print(1)".
Proof.
  exact (extract_without_fence "  print(1)  " "python" eq_refl).
Defined.

Section ExtractionFurther.

Lemma lstrip_head (s : string) :
  match lstrip s with
  | EmptyString => True
  | String c _ => is_space c = false
  end.
Proof.
  induction s as [|c s IH]; cbn [lstrip]; [exact I|].
  destruct (is_space c) eqn:Hc; [exact IH | exact Hc].
Qed.

Lemma rstrip_idem (s : string) : rstrip (rstrip s) = rstrip s.
Proof.
  induction s as [|c s IH]; cbn [rstrip]; [reflexivity|].
  destruct (rstrip s) as [|d r] eqn:Hr.
  - destruct (is_space c) eqn:Hc; cbn [rstrip]; [reflexivity|now rewrite Hc].
  - cbn [rstrip]. cbn [rstrip] in IH. now rewrite IH.
Qed.

Lemma rstrip_keeps_head (c : ascii) (s : string) :
  is_space c = false -> exists r, rstrip (String c s) = String c r.
Proof.
  intros Hc. cbn [rstrip].
  destruct (rstrip s) as [|d r].
  - rewrite Hc. now exists EmptyString.
  - now exists (String d r).
Qed.

Lemma strip_idem (s : string) : strip (strip s) = strip s.
Proof.
  unfold strip. pose proof (lstrip_head s) as Hhead.
  destruct (lstrip s) as [|c t].
  - reflexivity.
  - destruct (rstrip_keeps_head c t Hhead) as [r Hr].
    rewrite Hr. cbn [lstrip]. rewrite Hhead, <- Hr. apply rstrip_idem.
Qed.

Lemma length_lstrip (s : string) : String.length (lstrip s) <= String.length s.
Proof.
  induction s as [|c s IH]; cbn [lstrip String.length]; [lia|].
  destruct (is_space c); cbn [String.length]; lia.
Qed.

Lemma length_rstrip (s : string) : String.length (rstrip s) <= String.length s.
Proof.
  induction s as [|c s IH]; cbn [rstrip String.length]; [lia|].
  destruct (rstrip s) as [|d r]; [destruct (is_space c)|];
    cbn [String.length] in *; lia.
Qed.

Lemma length_strip (s : string) : String.length (strip s) <= String.length s.
Proof.
  unfold strip. pose proof (length_rstrip (lstrip s)).
  pose proof (length_lstrip s). lia.
Qed.

Lemma length_skip (n : nat) (s : string) :
  String.length (skip n s) <= String.length s.
Proof.
  revert s. induction n as [|n IH]; intros [|c s]; cbn [skip String.length];
    try lia. specialize (IH s). lia.
Qed.

Lemma length_take (n : nat) (s : string) :
  String.length (take n s) <= String.length s.
Proof.
  revert s. induction n as [|n IH]; intros [|c s]; cbn [take String.length];
    try lia. specialize (IH s). lia.
Qed.

Lemma length_slice (s : string) (start stop : Z) :
  String.length (slice s start stop) <= String.length s.
Proof.
  unfold slice.
  pose proof (length_take
                (slice_bound (String.length s) stop
                 - slice_bound (String.length s) start)
                (skip (slice_bound (String.length s) start) s)).
  pose proof (length_skip (slice_bound (String.length s) start) s). lia.
Qed.

(** X: what every extraction returns.  Whatever the response and the
    language, the extracted text has no white space at either end and
    is no longer than the response. *)
Theorem extraction_is_trimmed_and_bounded (response language : string) :
  trimmed (AIService._extract_code_from_response response language)
  /\ String.length (AIService._extract_code_from_response response language)
     <= String.length response
  /\ trimmed (AIService._extract_yaml_from_response response)
  /\ String.length (AIService._extract_yaml_from_response response)
     <= String.length response
  /\ trimmed (AIService.json_str_of response)
  /\ String.length (AIService.json_str_of response)
     <= String.length response.
Proof.
  assert (Hbound : forall start stop,
             String.length (strip (slice response start stop))
             <= String.length response).
  { intros start stop. pose proof (length_strip (slice response start stop)).
    pose proof (length_slice response start stop). lia. }
  unfold trimmed, AIService._extract_code_from_response,
    AIService._extract_yaml_from_response, AIService.json_str_of.
  cbn zeta.
  repeat split;
    repeat match goal with
           | |- context [if ?b then _ else _] => destruct b
           end;
    first [apply strip_idem | apply Hbound | apply length_strip].
Qed.

End ExtractionFurther.

(* ================================================================== *)
(** ** Further properties of the collaborator-facing services *)
(* ================================================================== *)

Section CollaboratorFurther.

Import WorkflowService.

Context (env : Env).

Lemma _generate_content_offline (prompt : string) (sent : World) :
  AIService.has_model env = false ->
  AIService._generate_content env prompt sent = (Raise not_configured, sent).
Proof.
  intros Hoff. unfold AIService._generate_content. now rewrite Hoff.
Qed.

Lemma reraise_eq {A} (body : M World A) (sent : World) :
  AIService.reraise body sent = body sent.
Proof.
  unfold AIService.reraise, try_except, raise.
  destruct (body sent) as [[a|e] sent']; reflexivity.
Qed.

(** X: without an API key the collaborator is never contacted.  Every
    operation of the AI service then raises the "not configured"
    error and sends nothing, except that a node of the wrong type is
    refused with a [ValueError] first; and a generation request with
    enrichment fails as a whole with that error. *)
Theorem offline_service_sends_nothing
    (workflow : Workflow) (node : WorkflowNode)
    (request : WorkflowGenerationRequest) (sent : World) :
  AIService.has_model env = false ->
  AIService.generate_workflow_yaml env workflow sent
  = (Raise not_configured, sent)
  /\ AIService.enhance_node_configuration env node sent
     = (Raise not_configured, sent)
  /\ AIService.generate_cloud_function_code env node sent
     = (Raise (if type_eqb (type node) CLOUD_FUNCTION then not_configured
               else ValueError "Node must be of type CLOUD_FUNCTION"),
        sent)
  /\ AIService.generate_cloud_run_dockerfile env node sent
     = (Raise (if type_eqb (type node) CLOUD_RUN then not_configured
               else ValueError "Node must be of type CLOUD_RUN"),
        sent)
  /\ (ai_enhance request = true ->
      generate_workflow_code env request sent = (Raise not_configured, sent)).
Proof.
  intros Hoff.
  assert (Hgen : forall A prompt (k : string -> M World A),
             bind (AIService._generate_content env prompt) k sent
             = (Raise not_configured, sent))
    by (intros A prompt k; apply bind_raise;
        now apply _generate_content_offline).
  assert (Hyaml : forall w, AIService.generate_workflow_yaml env w sent
                            = (Raise not_configured, sent))
    by (intros w; unfold AIService.generate_workflow_yaml;
        rewrite reraise_eq; apply Hgen).
  split; [apply Hyaml|].
  split.
  { unfold AIService.enhance_node_configuration. rewrite reraise_eq.
    apply Hgen. }
  split.
  { unfold AIService.generate_cloud_function_code.
    destruct (type_eqb (type node) CLOUD_FUNCTION); cbn [negb];
      [rewrite reraise_eq; apply Hgen | reflexivity]. }
  split.
  { unfold AIService.generate_cloud_run_dockerfile.
    destruct (type_eqb (type node) CLOUD_RUN); cbn [negb];
      [rewrite reraise_eq; apply Hgen | reflexivity]. }
  intros Henrich. unfold generate_workflow_code.
  rewrite reraise_eq, Henrich.
  apply bind_raise. apply Hyaml.
Qed.

(** *** The suggestion loop *)

Lemma enhance_log (node : WorkflowNode) (sent : World) :
  exists r,
    AIService.enhance_node_configuration env node sent
    = (r, if AIService.has_model env
          then (sent ++ [_build_enhancement_prompt env node])%list
          else sent).
Proof.
  unfold AIService.enhance_node_configuration. rewrite reraise_eq.
  unfold bind, AIService._generate_content.
  destruct (AIService.has_model env); cbn [negb].
  - destruct (model_generate_content env sent _); eexists; reflexivity.
  - eexists; reflexivity.
Qed.

(** One iteration sends at most one prompt, and none for a node
    without a hint; it only ever appends to the list. *)
Lemma suggestion_step_log (node : WorkflowNode) (sent : World)
    (l : list pyval) :
  exists r l',
    suggestion_step env node (sent, l)
    = (r, (if hinted node && AIService.has_model env
           then (sent ++ [_build_enhancement_prompt env node])%list
           else sent,
           (l ++ l')%list))
    /\ (hinted node = false -> r = Ok tt /\ l' = []).
Proof.
  unfold suggestion_step, hinted.
  destruct (truthy_str (ai_prompt (config node))); cbn [andb].
  - destruct (enhance_log node sent) as [r Hr].
    unfold bind at 1. unfold on_world. cbn [fst snd]. rewrite Hr.
    destruct r as [enhanced|e].
    + unfold bind, lift_result, extend, ret. cbn [fst snd].
      destruct (py_contains "suggestions" enhanced) as [[|]|e].
      * destruct (py_getitem enhanced "suggestions") as [v|e].
        -- destruct (py_iter v) as [items|e].
           ++ exists (Ok tt), items. split; [reflexivity | discriminate].
           ++ exists (Raise e), []. rewrite app_nil_r.
              split; [reflexivity | discriminate].
        -- exists (Raise e), []. rewrite app_nil_r.
           split; [reflexivity | discriminate].
      * exists (Ok tt), []. rewrite app_nil_r.
        split; [reflexivity | discriminate].
      * exists (Raise e), []. rewrite app_nil_r.
        split; [reflexivity | discriminate].
    + exists (Raise e), []. rewrite app_nil_r.
      split; [reflexivity | discriminate].
  - exists (Ok tt), []. rewrite app_nil_r. split; [reflexivity|].
    intros _. now split.
Qed.

Lemma grows_refl (sent : World) (n : nat) : grows_by_at_most sent sent n.
Proof. exists []. rewrite app_nil_r. split; [reflexivity | cbn; lia]. Qed.

Lemma grows_trans (a b c : World) (n m : nat) :
  grows_by_at_most a b n -> grows_by_at_most b c m ->
  grows_by_at_most a c (n + m).
Proof.
  intros (x & -> & Hx) (y & -> & Hy). exists (x ++ y)%list.
  rewrite app_assoc, length_app. split; [reflexivity | lia].
Qed.

Lemma collect_suggestions_log (ns : list WorkflowNode) (sent : World)
    (l : list pyval) :
  exists r sent' l',
    collect_suggestions env ns (sent, l) = (r, (sent', (l ++ l')%list))
    /\ grows_by_at_most sent sent' (List.length (filter hinted ns)).
Proof.
  revert sent l. unfold collect_suggestions.
  induction ns as [|node ns IH]; intros sent l; cbn [for_each filter].
  - exists (Ok tt), sent, []. rewrite app_nil_r.
    split; [reflexivity | apply grows_refl].
  - destruct (suggestion_step_log node sent l) as (r & l1 & Hstep & Hplain).
    unfold bind. rewrite Hstep.
    assert (Hgrow : grows_by_at_most sent
                      (if hinted node && AIService.has_model env
                       then (sent ++ [_build_enhancement_prompt env node])%list
                       else sent)
                      (if hinted node then 1 else 0)).
    { destruct (hinted node); cbn [andb]; [|apply grows_refl].
      destruct (AIService.has_model env); [|apply grows_refl].
      exists [_build_enhancement_prompt env node]. split; [reflexivity|].
      cbn. lia. }
    destruct r as [[]|e].
    + destruct (IH (if hinted node && AIService.has_model env
                    then (sent ++ [_build_enhancement_prompt env node])%list
                    else sent) (l ++ l1)%list)
        as (r' & sent' & l2 & Hrest & Hgrow').
      exists r', sent', (l1 ++ l2)%list. rewrite app_assoc.
      split; [exact Hrest|].
      pose proof (grows_trans _ _ _ _ _ Hgrow Hgrow') as Hall.
      destruct (hinted node); cbn [List.length]; exact Hall.
    + eexists (Raise e), _, l1. split; [reflexivity|].
      destruct Hgrow as (more & Hmore & Hlen). exists more.
      split; [exact Hmore|].
      destruct (hinted node); cbn [List.length]; lia.
Qed.

(** X: the suggestion list.  Collecting suggestions never raises; it
    returns at most 10 entries; and it sends the collaborator at most
    one prompt per node that carries a hint, after the prompts sent
    before. *)
Theorem suggestions_are_bounded (workflow : Workflow) (sent : World) :
  exists suggestions sent',
    _generate_ai_suggestions env workflow sent = (Ok suggestions, sent')
    /\ List.length suggestions <= 10
    /\ grows_by_at_most sent sent'
         (List.length (filter hinted (nodes workflow))).
Proof.
  unfold _generate_ai_suggestions, try_except, suggestions_body.
  destruct (collect_suggestions_log (nodes workflow) sent [])
    as (r & sent' & l & Hloop & Hgrow).
  unfold bind at 1. rewrite Hloop. cbn [app] in *.
  destruct r as [[]|e].
  - unfold extend. cbn [fst snd].
    eexists _, sent'. split; [reflexivity|].
    split; [apply firstn_le_length | exact Hgrow].
  - unfold ret. eexists _, sent'. split; [reflexivity|].
    split; [apply firstn_le_length | exact Hgrow].
Qed.

(** X: when every enhancement succeeds, the list is what the nodes
    contributed followed by the five general suggestions, cut to its
    first 10 entries; so from 10 contributed entries on no general
    suggestion is returned. *)
Theorem suggestions_after_success
    (workflow : Workflow) (sent sent' : World) (collected : list pyval) :
  collect_suggestions env (nodes workflow) (sent, [])
  = (Ok tt, (sent', collected)) ->
  _generate_ai_suggestions env workflow sent
  = (Ok (firstn 10 (collected ++ general_suggestions)), sent')
  /\ (10 <= List.length collected ->
      _generate_ai_suggestions env workflow sent
      = (Ok (firstn 10 collected), sent')).
Proof.
  intros Hloop.
  assert (Hall : _generate_ai_suggestions env workflow sent
                 = (Ok (firstn 10 (collected ++ general_suggestions)), sent')).
  { unfold _generate_ai_suggestions, try_except, suggestions_body.
    rewrite (bind_ok _ _ _ _ _ Hloop). reflexivity. }
  split; [exact Hall|].
  intros Hlen. rewrite Hall. f_equal. f_equal.
  rewrite firstn_app.
  replace (10 - List.length collected) with 0 by lia.
  cbn [firstn]. apply app_nil_r.
Qed.

(** X: a workflow without hints.  When no node carries a generation
    hint, the suggestions are exactly the five general ones and the
    collaborator is not contacted. *)
Theorem suggestions_without_hints (workflow : Workflow) (sent : World) :
  (forall node, In node (nodes workflow) -> hinted node = false) ->
  _generate_ai_suggestions env workflow sent
  = (Ok general_suggestions, sent).
Proof.
  intros Hplain.
  assert (Hloop : forall ns l,
             (forall node, In node ns -> hinted node = false) ->
             collect_suggestions env ns (sent, l) = (Ok tt, (sent, l))).
  { unfold collect_suggestions.
    induction ns as [|node ns IH]; intros l Hns; cbn [for_each];
      [reflexivity|].
    assert (Hstep : suggestion_step env node (sent, l) = (Ok tt, (sent, l))).
    { unfold suggestion_step.
      pose proof (Hns node (or_introl eq_refl)) as Hn.
      unfold hinted in Hn. now rewrite Hn. }
    rewrite (bind_ok _ _ _ _ _ Hstep). apply IH.
    intros n Hn. apply Hns. now right. }
  unfold _generate_ai_suggestions, try_except, suggestions_body.
  rewrite (bind_ok _ _ _ _ _ (Hloop (nodes workflow) [] Hplain)).
  reflexivity.
Qed.

(** X: what an answer contributes.  When the collaborator answers the
    enhancement prompt of a hinted node with a JSON object that has a
    ["suggestions"] entry, the elements of that entry are appended in
    order (the items of a list, the characters of a string, the keys
    of an object) and the loop goes on; when the answer is an object
    without that entry, or is not JSON at all, nothing is appended
    and the loop goes on as well. *)
Theorem answer_contributes_its_suggestions
    (node : WorkflowNode) (sent : World) (l : list pyval)
    (response : string) :
  hinted node = true ->
  AIService.has_model env = true ->
  model_generate_content env sent (_build_enhancement_prompt env node)
  = Ok response ->
  (forall d v items,
     json_loads env (AIService.json_str_of response) = Some (PDict d) ->
     dict_get "suggestions" d = Some v ->
     py_iter v = Ok items ->
     suggestion_step env node (sent, l)
     = (Ok tt, ((sent ++ [_build_enhancement_prompt env node])%list,
                (l ++ items)%list)))
  /\ (forall d,
        json_loads env (AIService.json_str_of response) = Some (PDict d) ->
        dict_get "suggestions" d = None ->
        suggestion_step env node (sent, l)
        = (Ok tt, ((sent ++ [_build_enhancement_prompt env node])%list, l)))
  /\ (json_loads env (AIService.json_str_of response) = None ->
      suggestion_step env node (sent, l)
      = (Ok tt, ((sent ++ [_build_enhancement_prompt env node])%list, l))).
Proof.
  intros Hhint Hmodel Hanswer.
  assert (Hstep : forall enhanced,
             AIService._extract_json_from_response env response = enhanced ->
             suggestion_step env node (sent, l)
             = bind (lift_result (py_contains "suggestions" enhanced))
                 (fun has : bool =>
                    if has
                    then bind (lift_result (py_getitem enhanced "suggestions"))
                           (fun v => bind (lift_result (py_iter v))
                                       (fun items => extend items))
                    else ret tt)
                 ((sent ++ [_build_enhancement_prompt env node])%list, l)).
  { intros enhanced Henh. unfold suggestion_step, hinted in *.
    rewrite Hhint.
    erewrite (bind_ok _ _ _ _ enhanced); [reflexivity|].
    unfold on_world. cbn [fst snd].
    rewrite (enhance_node_configuration_eq env node sent Hmodel).
    now rewrite Hanswer, Henh. }
  unfold AIService._extract_json_from_response in Hstep.
  repeat split.
  - intros d v items Hjson Hget Hiter. rewrite Hjson in Hstep.
    rewrite (Hstep _ eq_refl).
    unfold bind, lift_result, py_contains, py_getitem. rewrite Hget, Hiter.
    reflexivity.
  - intros d Hjson Hget. rewrite Hjson in Hstep. rewrite (Hstep _ eq_refl).
    unfold bind, lift_result, py_contains. now rewrite Hget.
  - intros Hjson. rewrite Hjson in Hstep. rewrite (Hstep _ eq_refl).
    reflexivity.
Qed.

End CollaboratorFurther.

Lemma offline_service_sends_nothing_witness :
  AIService.has_model Sample.offline_env = false
  /\ AIService.enhance_node_configuration Sample.offline_env Sample.fn_a []
     = (Raise not_configured, [])
  /\ WorkflowService.generate_workflow_code
       Sample.offline_env Sample.chain_request []
     = (Raise not_configured, []).
Proof.
  split; [reflexivity|].
  destruct (offline_service_sends_nothing
              Sample.offline_env Sample.chain Sample.fn_a
              Sample.chain_request [] eq_refl)
    as (_ & Henh & _ & _ & Hgen).
  split; [exact Henh | exact (Hgen eq_refl)].
Defined.

Lemma suggestions_after_success_witness :
  WorkflowService._generate_ai_suggestions
    (Sample.env (Sample.fails_on "never")) Sample.chain []
  = (Ok [PStr "Use retries"; PStr "Use retries";
         PStr "Consider adding error handling and retry logic";
         PStr "Implement proper logging and monitoring";
         PStr "Add input validation for all endpoints";
         PStr "Consider using Cloud Monitoring for observability";
         PStr "Implement proper authentication and authorization"],
     ["enhance fn-a"; "enhance fn-b"]).
Proof.
  exact (proj1 (suggestions_after_success
                  (Sample.env (Sample.fails_on "never")) Sample.chain
                  [] ["enhance fn-a"; "enhance fn-b"]
                  [PStr "Use retries"; PStr "Use retries"] eq_refl)).
Defined.

Lemma suggestions_without_hints_witness :
  WorkflowService._generate_ai_suggestions
    (Sample.env Sample.prose_model) Sample.one_orphan ["earlier prompt"]
  = (Ok WorkflowService.general_suggestions, ["earlier prompt"]).
Proof.
  apply (suggestions_without_hints
           (Sample.env Sample.prose_model) Sample.one_orphan).
  intros node [<- | [<- | [<- | []]]]; reflexivity.
Defined.

Lemma answer_contributes_its_suggestions_witness :
  WorkflowService.suggestion_step
    (Sample.env (Sample.fails_on "never")) Sample.fn_a ([], [PStr "first"])
  = (Ok tt, (["enhance fn-a"], [PStr "first"; PStr "Use retries"])).
Proof.
  destruct (answer_contributes_its_suggestions
              (Sample.env (Sample.fails_on "never")) Sample.fn_a []
              [PStr "first"] Sample.one_suggestion eq_refl eq_refl eq_refl)
    as (Hlist & _ & _).
  exact (Hlist [("suggestions", PList [PStr "Use retries"])]
               (PList [PStr "Use retries"]) [PStr "Use retries"]
               eq_refl eq_refl eq_refl).
Defined.

(* ================================================================== *)
(** ** Properties of the generation orchestrator *)
(* ================================================================== *)

Section Orchestrator.

Import WorkflowService.

Context (env : Env).

Lemma bind_inv {S A B} (m : M S A) (k : A -> M S B) (s s' : S) (b : B) :
  bind m k s = (Ok b, s') ->
  exists a s1, m s = (Ok a, s1) /\ k a s1 = (Ok b, s').
Proof.
  unfold bind. destruct (m s) as [[a|e] s1]; [|discriminate].
  intros H. now exists a, s1.
Qed.

Lemma append_inv_head (a x y : string) : a ++ x = a ++ y -> x = y.
Proof.
  induction a as [|c a IH]; cbn; [trivial|]. intros [= H]. now apply IH.
Qed.

Lemma append_assoc (a b c : string) : (a ++ b) ++ c = a ++ (b ++ c).
Proof. induction a as [|d a IH]; cbn; [reflexivity | now rewrite IH]. Qed.

(** *** Dictionaries *)

Lemma keys_dict_set {V} (k : string) (v : V) (d : list (string * V)) :
  keys (dict_set k v d)
  = if mem k (keys d) then keys d else (keys d ++ [k])%list.
Proof.
  unfold keys, mem.
  induction d as [|[k' v'] d IH]; cbn [dict_set map existsb fst];
    [reflexivity|].
  destruct (k =? k') eqn:Hk; cbn [orb map fst]; [reflexivity|].
  rewrite IH. now destruct (existsb (String.eqb k) (map fst d)).
Qed.

Lemma mem_In (k : string) (l : list string) : mem k l = true <-> In k l.
Proof.
  unfold mem. rewrite existsb_exists. split.
  - intros (x & Hin & Heq). apply String.eqb_eq in Heq. now subst.
  - intros Hin. exists k. split; [exact Hin | apply String.eqb_refl].
Qed.

Lemma in_keys_dict_set {V} (k k' : string) (v : V) (d : list (string * V)) :
  In k (keys (dict_set k' v d)) <-> In k (keys d) \/ k = k'.
Proof.
  rewrite keys_dict_set. destruct (mem k' (keys d)) eqn:Hm.
  - apply mem_In in Hm. split; [now left | intros [H | ->]; assumption].
  - rewrite in_app_iff. cbn [In]. intuition.
Qed.

Lemma NoDup_keys_dict_set {V} (k : string) (v : V) (d : list (string * V)) :
  NoDup (keys d) -> NoDup (keys (dict_set k v d)).
Proof.
  intros Hnd. rewrite keys_dict_set. destruct (mem k (keys d)) eqn:Hm;
    [exact Hnd|].
  apply NoDup_app; [exact Hnd | repeat constructor; intros [] |].
  intros x Hx [<- | []].
  apply mem_In in Hx. congruence.
Qed.

Lemma in_keys_dict_update {V} (k : string) (d u : list (string * V)) :
  In k (keys (dict_update d u)) <-> In k (keys d) \/ In k (keys u).
Proof.
  unfold dict_update. revert d.
  induction u as [|[k' v] u IH]; intros d; cbn [fold_left fst snd].
  - cbn. intuition.
  - rewrite IH, in_keys_dict_set. unfold keys at 4. cbn [map fst In].
    intuition.
Qed.

Lemma NoDup_keys_dict_update {V} (d u : list (string * V)) :
  NoDup (keys d) -> NoDup (keys (dict_update d u)).
Proof.
  unfold dict_update. revert d.
  induction u as [|[k v] u IH]; intros d Hnd; cbn [fold_left fst snd];
    [exact Hnd|].
  apply IH. now apply NoDup_keys_dict_set.
Qed.

Lemma dict_update_app {V} (d u u' : list (string * V)) :
  dict_update (dict_update d u) u' = dict_update d (u ++ u')%list.
Proof. unfold dict_update. now rewrite fold_left_app. Qed.

(** Updates whose keys all differ from the first key of a dictionary
    leave its first entry in place. *)
Lemma dict_update_head {V} (k0 : string) (v0 : V) (d u : list (string * V)) :
  (forall k, In k (keys u) -> k <> k0) ->
  exists rest, dict_update ((k0, v0) :: d) u = (k0, v0) :: rest.
Proof.
  unfold dict_update. revert d.
  induction u as [|[k v] u IH]; intros d Hu; cbn [fold_left fst snd].
  - now exists d.
  - cbn [dict_set].
    destruct (k =? k0) eqn:Hk.
    + apply String.eqb_eq in Hk. exfalso. apply (Hu k); [now left | exact Hk].
    + apply IH. intros k' Hk'. apply Hu. now right.
Qed.

(** *** The files of one node *)

Lemma dict_set_other {V} (k k' : string) (v v' : V) (d : list (string * V)) :
  k <> k' -> dict_set k v ((k', v') :: d) = (k', v') :: dict_set k v d.
Proof.
  intros Hneq. cbn [dict_set]. apply String.eqb_neq in Hneq.
  now rewrite Hneq.
Qed.

Lemma dict_set_nil {V} (k : string) (v : V) : dict_set k v [] = [(k, v)].
Proof. reflexivity. Qed.

Lemma folder_key_neq (folder x y : string) :
  x <> y -> folder ++ x <> folder ++ y.
Proof. intros Hneq Heq. apply Hneq. now apply (append_inv_head folder). Qed.

Lemma function_files_eq (node : WorkflowNode) (b : bool) (sent sent' : World)
    (files : list (string * string)) :
  _generate_function_files env node b sent = (Ok files, sent') ->
  exists main_py,
    files = [(function_folder env node ++ "/main.py", main_py);
             (function_folder env node ++ "/requirements.txt",
              _generate_function_requirements env)]
    /\ (b = false -> sent' = sent
                     /\ main_py = _generate_basic_function_code env node).
Proof.
  unfold _generate_function_files. intros H.
  apply bind_inv in H. destruct H as (main_py & s1 & Hmain & Hret).
  injection Hret as <- <-. exists main_py. split.
  - change (dict_set (function_folder env node ++ "/requirements.txt")
              (_generate_function_requirements env)
              [(function_folder env node ++ "/main.py", main_py)]
            = [(function_folder env node ++ "/main.py", main_py);
               (function_folder env node ++ "/requirements.txt",
                _generate_function_requirements env)]).
    rewrite dict_set_other by (apply folder_key_neq; discriminate).
    reflexivity.
  - intros ->. injection Hmain as <- <-. now split.
Qed.

Lemma service_files_eq (node : WorkflowNode) (b : bool) (sent sent' : World)
    (files : list (string * string)) :
  _generate_service_files env node b sent = (Ok files, sent') ->
  exists dockerfile,
    files = [(service_folder env node ++ "/Dockerfile", dockerfile);
             (service_folder env node ++ "/main.py",
              _generate_basic_service_code env node);
             (service_folder env node ++ "/requirements.txt",
              _generate_service_requirements env)]
    /\ (b = false -> sent' = sent
                     /\ dockerfile = _generate_basic_dockerfile env node).
Proof.
  unfold _generate_service_files. intros H.
  apply bind_inv in H. destruct H as (dockerfile & s1 & Hdocker & Hret).
  injection Hret as <- <-. exists dockerfile. split.
  - change (dict_set (service_folder env node ++ "/requirements.txt")
              (_generate_service_requirements env)
              (dict_set (service_folder env node ++ "/main.py")
                 (_generate_basic_service_code env node)
                 [(service_folder env node ++ "/Dockerfile", dockerfile)])
            = [(service_folder env node ++ "/Dockerfile", dockerfile);
               (service_folder env node ++ "/main.py",
                _generate_basic_service_code env node);
               (service_folder env node ++ "/requirements.txt",
                _generate_service_requirements env)]).
    rewrite !dict_set_other by (apply folder_key_neq; discriminate).
    rewrite (dict_set_nil (service_folder env node ++ "/main.py")).
    rewrite dict_set_other by (apply folder_key_neq; discriminate).
    reflexivity.
  - intros ->. injection Hdocker as <- <-. now split.
Qed.

(** The loop over the nodes is one update of the dictionary, by the
    files of the nodes in node order. *)
Lemma generate_node_files_updates (ns : list WorkflowNode) (b : bool)
    (files files' : list (string * string)) (sent sent' : World) :
  generate_node_files env ns b files sent = (Ok files', sent') ->
  exists updates,
    files' = dict_update files updates
    /\ keys updates = flat_map (node_file_keys env) ns
    /\ (b = false -> sent' = sent).
Proof.
  revert files sent.
  induction ns as [|node ns IH]; intros files sent; cbn [generate_node_files].
  - intros [= <- <-]. exists []. now repeat split.
  - cbn [flat_map].
    destruct (type node) eqn:Hty; intros H;
      try (destruct (IH _ _ H) as (u & Hu & Hk & Hs);
           exists u; unfold node_file_keys at 1; rewrite Hty; cbn [app];
           now repeat split).
    + apply bind_inv in H.
      destruct H as (fl & s1 & Hfl & Hrest).
      destruct (function_files_eq node b sent s1 fl Hfl)
        as (main_py & -> & Hdet).
      destruct (IH _ _ Hrest) as (u & Hu & Hk & Hs).
      eexists (_ ++ u)%list. rewrite <- dict_update_app.
      split; [exact Hu|]. split.
      * assert (Hn : node_file_keys env node
                     = [function_folder env node ++ "/main.py";
                        function_folder env node ++ "/requirements.txt"])
          by (unfold node_file_keys; now rewrite Hty).
        unfold keys in *. now rewrite map_app, Hk, Hn.
      * intros Hb. destruct (Hdet Hb) as [-> _]. now apply Hs.
    + apply bind_inv in H.
      destruct H as (fl & s1 & Hfl & Hrest).
      destruct (service_files_eq node b sent s1 fl Hfl)
        as (dockerfile & -> & Hdet).
      destruct (IH _ _ Hrest) as (u & Hu & Hk & Hs).
      eexists (_ ++ u)%list. rewrite <- dict_update_app.
      split; [exact Hu|]. split.
      * assert (Hn : node_file_keys env node
                     = [service_folder env node ++ "/Dockerfile";
                        service_folder env node ++ "/main.py";
                        service_folder env node ++ "/requirements.txt"])
          by (unfold node_file_keys; now rewrite Hty).
        unfold keys in *. now rewrite map_app, Hk, Hn.
      * intros Hb. destruct (Hdet Hb) as [-> _]. now apply Hs.
Qed.

Lemma node_file_key_not_workflow_yaml (ns : list WorkflowNode) (k : string) :
  In k (flat_map (node_file_keys env) ns) -> k <> "workflow.yaml".
Proof.
  rewrite in_flat_map. intros (node & _ & Hk).
  unfold node_file_keys, function_folder, service_folder in Hk.
  destruct (type node); cbn [In] in Hk; try contradiction;
    repeat destruct Hk as [<- | Hk]; try contradiction; discriminate.
Qed.

(** X: the file map of a generation.  Whenever a generation succeeds,
    with or without enrichment, the first entry of [generated_files] is
    [workflow.yaml] and no node file replaces it; no path occurs twice;
    and the paths are [workflow.yaml] and the paths of the Cloud
    Function and Cloud Run nodes ([main.py] and [requirements.txt]
    under [functions/<name>/], and [Dockerfile], [main.py] and
    [requirements.txt] under [services/<name>/]), nothing else. *)
Theorem generated_files_paths
    (request : WorkflowGenerationRequest) (sent sent' : World)
    (response : WorkflowGenerationResponse) :
  generate_workflow_code env request sent = (Ok response, sent') ->
  (exists workflow_yaml rest,
      generated_files response = ("workflow.yaml", workflow_yaml) :: rest
      /\ (ai_enhance request = false ->
          workflow_yaml
          = _generate_basic_workflow_yaml env (workflow request)))
  /\ NoDup (keys (generated_files response))
  /\ (forall k,
        In k (keys (generated_files response))
        <-> k = "workflow.yaml"
            \/ In k (flat_map (node_file_keys env)
                              (nodes (workflow request)))).
Proof.
  unfold generate_workflow_code. rewrite reraise_eq. intros H.
  apply bind_inv in H. destruct H as (yaml & s1 & Hyaml & H).
  apply bind_inv in H. destruct H as (files & s2 & Hfiles & H).
  apply bind_inv in H. destruct H as (suggestions & s3 & _ & H).
  apply bind_inv in H. destruct H as (resp & s4 & Hresp & Hret).
  injection Hret as -> ->.
  unfold lift_result, WorkflowGenerationResponse_init in Hresp.
  destruct (strs_of suggestions); [|discriminate].
  injection Hresp as <- <-. cbn [generated_files].
  destruct (generate_node_files_updates _ _ _ _ _ _ Hfiles)
    as (updates & -> & Hkeys & _).
  cbn [dict_set].
  split; [|split].
  - destruct (dict_update_head "workflow.yaml" yaml [] updates) as [rest Hrest].
    { intros k Hk. rewrite Hkeys in Hk.
      now apply (node_file_key_not_workflow_yaml _ _ Hk). }
    exists yaml, rest. split; [exact Hrest|].
    intros Hb. rewrite Hb in Hyaml. now injection Hyaml as <- _.
  - apply NoDup_keys_dict_update. cbn. repeat constructor. intros [].
  - intros k. rewrite in_keys_dict_update, Hkeys. cbn [keys map fst In].
    intuition.
Qed.

Lemma generate_node_files_basic (ns : list WorkflowNode)
    (files : list (string * string)) (sent : World) :
  exists files',
    generate_node_files env ns false files sent = (Ok files', sent).
Proof.
  revert files. induction ns as [|node ns IH]; intros files;
    cbn [generate_node_files]; [now eexists|].
  destruct (type node); apply IH.
Qed.

Lemma generate_workflow_code_basic
    (request : WorkflowGenerationRequest) (sent : World) :
  ai_enhance request = false ->
  exists files,
    generate_node_files env (nodes (workflow request)) false
      (dict_set "workflow.yaml"
         (_generate_basic_workflow_yaml env (workflow request)) [])
      sent
    = (Ok files, sent)
    /\ generate_workflow_code env request sent
       = (Ok {| workflow_id := wf_id (workflow request);
                generated_files := files;
                deployment_configs :=
                  Some (if include_deployment request
                        then _generate_deployment_configs env
                               (workflow request)
                        else []);
                ai_suggestions := Some [];
                generation_time := total_seconds env |},
          sent).
Proof.
  intros Hoff.
  destruct (generate_node_files_basic
              (nodes (workflow request))
              (dict_set "workflow.yaml"
                 (_generate_basic_workflow_yaml env (workflow request)) [])
              sent) as [files Hfiles].
  exists files. split; [exact Hfiles|].
  unfold generate_workflow_code. rewrite reraise_eq, Hoff.
  unfold bind at 1. unfold ret at 1.
  rewrite (bind_ok _ _ _ _ _ Hfiles).
  unfold bind, ret, lift_result, WorkflowGenerationResponse_init.
  cbn [strs_of]. reflexivity.
Qed.

(** X: generation without enrichment.  With [ai_enhance] off the
    orchestrator sends nothing to the collaborator, even when one is
    configured, whatever the workflow and however the call ends; and
    the response it returns, when it returns one, carries the id of
    the workflow, the empty list of suggestions, the three files of
    [_generate_deployment_configs] when they were asked for and the
    empty dictionary otherwise, and the compiled step-document as its
    first file, which is its only file when the workflow has no Cloud
    Function and no Cloud Run node. *)
Theorem generation_without_enrichment
    (request : WorkflowGenerationRequest) (sent sent' : World)
    (outcome : result WorkflowGenerationResponse) :
  ai_enhance request = false ->
  generate_workflow_code env request sent = (outcome, sent') ->
  sent' = sent
  /\ forall response,
       outcome = Ok response ->
       workflow_id response = wf_id (workflow request)
       /\ ai_suggestions response = Some []
       /\ deployment_configs response
          = Some (if include_deployment request
                  then [("cloudbuild.yaml",
                         _generate_cloudbuild_config env (workflow request));
                        ("terraform/main.tf",
                         _generate_terraform_config env (workflow request));
                        ("deploy.sh",
                         _generate_deployment_script env (workflow request))]
                  else [])
       /\ generation_time response = total_seconds env
       /\ (exists rest,
             generated_files response
             = ("workflow.yaml",
                _generate_basic_workflow_yaml env (workflow request)) :: rest)
       /\ ((forall node, In node (nodes (workflow request)) ->
              has_files node = false) ->
           generated_files response
           = [("workflow.yaml",
               _generate_basic_workflow_yaml env (workflow request))]).
Proof.
  intros Hoff Hrun.
  destruct (generate_workflow_code_basic request sent Hoff)
    as (files & Hfiles & Hcode).
  rewrite Hcode in Hrun. injection Hrun as <- <-.
  split; [reflexivity|].
  intros response Hresponse. injection Hresponse as <-.
  cbn [workflow_id ai_suggestions deployment_configs generation_time
       generated_files].
  do 4 (split; [reflexivity|]).
  destruct (generate_node_files_updates _ _ _ _ _ _ Hfiles)
    as (updates & -> & Hkeys & _).
  cbn [dict_set]. split.
  - apply dict_update_head. intros k Hk. rewrite Hkeys in Hk.
    now apply (node_file_key_not_workflow_yaml _ _ Hk).
  - intros Hplain.
    assert (Hnil : flat_map (node_file_keys env) (nodes (workflow request))
                   = []).
    { apply flat_map_nil. intros node Hin. specialize (Hplain node Hin).
      unfold has_files in Hplain. unfold node_file_keys.
      destruct (type node); try reflexivity; discriminate. }
    rewrite Hnil in Hkeys. destruct updates; [reflexivity | discriminate].
Qed.

End Orchestrator.

Lemma generated_files_paths_witness :
  exists response sent',
    WorkflowService.generate_workflow_code
      (Sample.env (Sample.fails_on "never")) Sample.chain_request []
    = (Ok response, sent')
    /\ NoDup (keys (generated_files response)).
Proof.
  eexists _, _. split; [reflexivity|].
  exact (proj1 (proj2 (generated_files_paths
                         (Sample.env (Sample.fails_on "never"))
                         Sample.chain_request [] _ _ eq_refl))).
Defined.

Lemma generation_without_enrichment_witness :
  exists response,
    WorkflowService.generate_workflow_code
      (Sample.env Sample.prose_model) (Demo.demo_request Sample.start_end)
      ["earlier prompt"]
    = (Ok response, ["earlier prompt"])
    /\ ai_suggestions response = Some []
    /\ List.length (generated_files response) = 1.
Proof.
  eexists. split; [reflexivity|].
  destruct (generation_without_enrichment
              (Sample.env Sample.prose_model)
              (Demo.demo_request Sample.start_end)
              ["earlier prompt"] _ _ eq_refl eq_refl)
    as [_ Hresponse].
  destruct (Hresponse _ eq_refl) as (_ & Hnone & _ & _ & _ & Hfiles).
  split; [exact Hnone|].
  rewrite Hfiles; [reflexivity|].
  intros node [<- | [<- | []]]; reflexivity.
Defined.

(* ================================================================== *)
(** ** Properties of the endpoints *)
(* ================================================================== *)

Section EndpointsFurther.

Import WorkflowService.

Context (env : Env).

(** X: the validate and the preview endpoint.  For every body from
    which a workflow can be constructed the validate endpoint answers
    200 and sends nothing to the collaborator; it reports the issues
    of the validator, and [is_valid] holds exactly when there is none.
    The preview endpoint answers a workflow that has an issue with
    200, the same issues and no document, likewise without a prompt;
    and whenever it answers 200 it has sent nothing, it reports the
    issues of the validator, and it carries the compiled step-document
    exactly when the workflow is valid. *)
Theorem validate_and_preview_agree
    (body : Endpoints.WorkflowBody) (workflow : Workflow) (sent : World) :
  Endpoints.parse_workflow body = Ok workflow ->
  (exists report,
      Endpoints.post_validate env body sent
      = (Endpoints.Response200 report, sent)
      /\ Endpoints.report_workflow_id report = wf_id workflow
      /\ Endpoints.issues report = validate_workflow workflow
      /\ (Endpoints.is_valid report = true
          <-> validate_workflow workflow = []))
  /\ (validate_workflow workflow <> [] ->
      exists preview,
        Endpoints.post_preview env body sent
        = (Endpoints.Response200 preview, sent)
        /\ Endpoints.validation_issues preview = validate_workflow workflow
        /\ Endpoints.yaml_content preview = None)
  /\ (forall preview sent',
        Endpoints.post_preview env body sent
        = (Endpoints.Response200 preview, sent') ->
        sent' = sent
        /\ Endpoints.preview_workflow_id preview = wf_id workflow
        /\ Endpoints.validation_issues preview = validate_workflow workflow
        /\ Endpoints.yaml_content preview
           = match validate_workflow workflow with
             | [] => Some (_generate_basic_workflow_yaml env workflow)
             | _ :: _ => None
             end).
Proof.
  intros Hparse.
  unfold Endpoints.post_validate, Endpoints.post_preview, Endpoints.serve.
  rewrite Hparse.
  unfold Endpoints.validate_workflow, Endpoints.preview_workflow_yaml,
    try_except, ret.
  split; [|split].
  - eexists. split; [reflexivity|].
    cbn [Endpoints.report_workflow_id Endpoints.issues Endpoints.is_valid].
    split; [reflexivity|]. split; [reflexivity|].
    destruct (validate_workflow workflow); cbn [List.length Nat.eqb];
      split; intros H; try reflexivity; discriminate H.
  - intros Hissues.
    destruct (validate_workflow workflow) as [|issue issues];
      [now contradiction Hissues|].
    eexists. split; [reflexivity|]. split; reflexivity.
  - intros preview sent' Hrun.
    destruct (validate_workflow workflow) as [|issue issues];
      injection Hrun as <- <-; repeat split.
Qed.

End EndpointsFurther.

Lemma validate_and_preview_agree_witness :
  exists report preview,
    Endpoints.post_validate (Sample.env Sample.prose_model)
      (Sample.mk_body (nodes Sample.one_orphan)
                      (connections Sample.one_orphan)) []
    = (Endpoints.Response200 report, [])
    /\ Endpoints.post_preview (Sample.env Sample.prose_model)
         (Sample.mk_body (nodes Sample.one_orphan)
                         (connections Sample.one_orphan)) []
       = (Endpoints.Response200 preview, [])
    /\ Endpoints.is_valid report = false
    /\ Endpoints.validation_issues preview = Endpoints.issues report
    /\ Endpoints.yaml_content preview = None.
Proof.
  destruct (validate_and_preview_agree
              (Sample.env Sample.prose_model)
              (Sample.mk_body (nodes Sample.one_orphan)
                              (connections Sample.one_orphan))
              Sample.one_orphan [] eq_refl)
    as ((report & Hv & _ & Hissues & Hvalid) & Hinvalid & _).
  destruct Hinvalid as (preview & Hp & Hpissues & Hyaml);
    [discriminate|].
  exists report, preview. split; [exact Hv|]. split; [exact Hp|].
  split.
  - destruct (Endpoints.is_valid report); [|reflexivity].
    destruct Hvalid as [Hnil _]. specialize (Hnil eq_refl). discriminate.
  - split; [now rewrite Hpissues, Hissues | exact Hyaml].
Defined.

(* ================================================================== *)
(** ** Properties of the catalogue and of the demo *)
(* ================================================================== *)

Section CatalogueAndDemo.

Import WorkflowService.

Lemma distinctb_NoDup (l : list string) : distinctb l = true -> NoDup l.
Proof.
  induction l as [|x l IH]; cbn [distinctb]; [constructor|].
  intros H. apply andb_true_iff in H. destruct H as [Hx Hl].
  constructor; [|now apply IH].
  intros Hin. apply mem_In in Hin. rewrite Hin in Hx. discriminate.
Qed.

(** X: the node-type catalogue.  The enumeration has one entry per
    node type, 15 in all, no type twice; every type has a description
    of its own in the table, so the fallback text is never returned;
    and no display name contains an underscore. *)
Theorem node_types_are_described :
  List.length Catalog.get_workflow_node_types = 15
  /\ (forall t,
        In {| Catalog.entry_type := Catalog.value t;
              Catalog.entry_name :=
                Catalog.title (Catalog.replace_char "_" " " (Catalog.value t));
              Catalog.entry_description :=
                Catalog._get_node_type_description t |}
           Catalog.get_workflow_node_types)
  /\ NoDup (map Catalog.entry_type Catalog.get_workflow_node_types)
  /\ (forall t,
        Catalog._get_node_type_description t <> "No description available")
  /\ Forall (fun e => contains "_" (Catalog.entry_name e) = false)
            Catalog.get_workflow_node_types.
Proof.
  split; [reflexivity|].
  split.
  { intros t. unfold Catalog.get_workflow_node_types, Catalog.all_types.
    cbn [map].
    destruct t; repeat (first [left; reflexivity | right]). }
  split; [apply distinctb_NoDup; vm_compute; reflexivity|].
  split; [intros []; vm_compute; discriminate|].
  unfold Catalog.get_workflow_node_types, Catalog.all_types. cbn [map].
  repeat (apply Forall_cons; [vm_compute; reflexivity|]).
  apply Forall_nil.
Qed.

(** X: the templates.  Each of the three predefined templates, whatever
    identifier it is given, is a body from which a workflow is
    constructed, and that workflow has no validation issue; so the
    preview endpoint compiles it.  The template ids are distinct. *)
Theorem templates_are_valid
    (env : Env) (uuid1 uuid2 uuid3 : string) (now : datetime) (sent : World) :
  Forall (fun t =>
            exists workflow,
              Endpoints.parse_workflow (Catalog.template t) = Ok workflow
              /\ wf_id workflow = Endpoints.body_id (Catalog.template t)
              /\ validate_workflow workflow = []
              /\ exists preview,
                   Endpoints.post_preview env (Catalog.template t) sent
                   = (Endpoints.Response200 preview, sent)
                   /\ Endpoints.yaml_content preview
                      = Some (_generate_basic_workflow_yaml env workflow))
         (Catalog.get_workflow_templates uuid1 uuid2 uuid3 now)
  /\ NoDup (map Catalog.template_id
                (Catalog.get_workflow_templates uuid1 uuid2 uuid3 now)).
Proof.
  split.
  - repeat constructor; eexists; (split; [reflexivity|]);
      (split; [reflexivity|]); (split; [reflexivity|]);
      eexists; split; reflexivity.
  - apply distinctb_NoDup. vm_compute. reflexivity.
Qed.

(** X: the demo.  The sample workflow of the demo is accepted by the
    constructor and has no validation issue, so the demo goes on to
    generate; the generation, which is without enrichment, returns the
    step-document and the two files of the function [process-data],
    together with the three deployment configurations, and sends
    nothing to the collaborator although the Cloud Function node
    carries a generation hint. *)
Theorem demo_generates_its_files
    (env : Env) (workflow_id : string) (now : datetime) (sent : World) :
  exists workflow response,
    Demo.create_sample_workflow workflow_id now = Ok workflow
    /\ validate_workflow workflow = []
    /\ generate_workflow_code env (Demo.demo_request workflow) sent
       = (Ok response, sent)
    /\ keys (generated_files response)
       = ["workflow.yaml";
          "functions/process-data/main.py";
          "functions/process-data/requirements.txt"]
    /\ option_map keys (deployment_configs response)
       = Some ["cloudbuild.yaml"; "terraform/main.tf"; "deploy.sh"]
    /\ ai_suggestions response = Some []
    /\ map step_key (workflow_steps env workflow)
       = [Some "step_1"; Some "step_2"; Some "end_step_3"].
Proof.
  eexists _, _. split; [reflexivity|]. split; [reflexivity|].
  split; [reflexivity|]. repeat split.
Qed.

End CatalogueAndDemo.
